(** * Givebutter -> CiviCRM webhook bridge: model and verification

    The repository holds four successive variants of one Express service:

    - [Baseline]     src/index.js
    - [CustomField]  src/unnamed/part_000, lines 1-278
    - [Membership]   src/unnamed/part_000, lines 279-776
    - [Campaign]     src/unnamed/part_000, lines 777-1141

    Every variant is embedded below as a function of an explicit outside
    world (the CiviCRM REST endpoint and the Givebutter plan API), in a small
    monad that threads the trace of outgoing calls and [console.error] lines
    and propagates JavaScript exceptions. *)

From Stdlib Require Import ZArith QArith List String Ascii Bool Lia Lqa.
From Stdlib Require Import DecimalString.
Import ListNotations.

Local Open Scope string_scope.
Local Open Scope Z_scope.

(* ================================================================== *)
(** * JavaScript values *)

Module JS.

(** The scalar values that reach the service through parsed JSON, plus
    [Inherited name] for the member [name] of [Object.prototype], which a
    property read on an object literal yields when the literal has no own
    property of that name. *)
Inductive value : Type :=
| Undefined
| Null
| Bool (b : bool)
| Num (z : Z)
| Str (s : string)
| Inherited (name : string).

(** ToBoolean. *)
Definition truthy (v : value) : bool :=
  match v with
  | Undefined | Null => false
  | Bool b => b
  | Num z => negb (z =? 0)
  | Str s => negb (s =? "")%string
  | Inherited _ => true
  end.

(** [a || b] and [a && b]. *)
Definition or (a b : value) : value := if truthy a then a else b.
Definition and (a b : value) : value := if truthy a then b else a.

(** [a === b]. *)
Definition strictEq (a b : value) : bool :=
  match a, b with
  | Undefined, Undefined => true
  | Null, Null => true
  | Bool x, Bool y => Bool.eqb x y
  | Num x, Num y => x =? y
  | Str x, Str y => (x =? y)%string
  | Inherited x, Inherited y => (x =? y)%string
  | _, _ => false
  end.

Definition decimal (z : Z) : string := NilZero.string_of_int (Z.to_int z).

(** ToString, as used by template literals and by computed property keys. *)
Definition toString (v : value) : string :=
  match v with
  | Undefined => "undefined"
  | Null => "null"
  | Bool true => "true"
  | Bool false => "false"
  | Num z => decimal z
  | Str s => s
  | Inherited name =>
      if (name =? "__proto__")%string then "[object Object]"
      else if (name =? "constructor")%string
           then "function Object() { [native code] }"
           else "function " ++ name ++ "() { [native code] }"
  end.

(** An object literal used as a lookup table: its own properties, in the
    order written. *)
Definition table := list (string * value).

Fixpoint own (t : table) (k : string) : option value :=
  match t with
  | [] => None
  | (k', v) :: t' => if (k' =? k)%string then Some v else own t' k
  end.

(** The property names every object literal inherits from
    [Object.prototype]. *)
Definition objectPrototype : list string :=
  [ "constructor"; "__defineGetter__"; "__defineSetter__"; "hasOwnProperty";
    "__lookupGetter__"; "__lookupSetter__"; "isPrototypeOf";
    "propertyIsEnumerable"; "toString"; "valueOf"; "__proto__";
    "toLocaleString" ].

Definition inherited (k : string) : bool :=
  existsb (fun n => (n =? k)%string) objectPrototype.

(** [t[key]]: the key is converted with ToString, own properties shadow the
    prototype, and a name found nowhere reads as [undefined]. *)
Definition get (t : table) (key : value) : value :=
  let k := toString key in
  match own t k with
  | Some v => v
  | None => if inherited k then Inherited k else Undefined
  end.

(** What [catch (error)] receives.  The service only reads [error.message]. *)
Inductive error : Type :=
| AxiosError (message : string)
| TypeError (message : string).

Definition message (e : error) : string :=
  match e with AxiosError m | TypeError m => m end.

End JS.

Import JS.

(* ================================================================== *)
(** * The [Date] object

    Time values are milliseconds since the epoch, as in ECMAScript
    (section "Time Values and Time Range").  The local time zone of the
    process is taken to be UTC, so that [getDate]/[setDate] and friends
    agree with their UTC counterparts and with the UTC rendering of
    [toISOString]. *)

Module JSDate.

Definition msPerDay : Z := 86400000.

Definition Day (t : Z) : Z := t / msPerDay.
Definition TimeWithinDay (t : Z) : Z := t mod msPerDay.
Definition MakeDate (day time : Z) : Z := day * msPerDay + time.

Definition leapYear (y : Z) : bool :=
  (y mod 4 =? 0) && (negb (y mod 100 =? 0) || (y mod 400 =? 0)).

Definition DaysInYear (y : Z) : Z := if leapYear y then 366 else 365.

(** Day number of the first day of year [y]. *)
Definition DayFromYear (y : Z) : Z :=
  365 * (y - 1970) + (y - 1969) / 4 - (y - 1901) / 100 + (y - 1601) / 400.

(** The year a day number falls in, by 400-, 100-, 4- and 1-year cycles
    counted from 1601-01-01. *)
Definition YearFromDay (d : Z) : Z :=
  let n := d - DayFromYear 1601 in
  let q400 := n / 146097 in
  let r400 := n mod 146097 in
  let q100 := Z.min 3 (r400 / 36524) in
  let r100 := r400 - q100 * 36524 in
  let q4 := r100 / 1461 in
  let r4 := r100 mod 1461 in
  let q1 := Z.min 3 (r4 / 365) in
  1601 + 400 * q400 + 100 * q100 + 4 * q4 + q1.

Definition YearFromTime (t : Z) : Z := YearFromDay (Day t).
Definition InLeapYear (t : Z) : bool := leapYear (YearFromTime t).
Definition DayWithinYear (t : Z) : Z := Day t - DayFromYear (YearFromTime t).

(** Days of the year that precede month [m] (0 = January). *)
Definition monthStart (leap : bool) (m : Z) : Z :=
  let l := if leap then 1 else 0 in
  match m with
  | 0 => 0
  | 1 => 31
  | 2 => 59 + l
  | 3 => 90 + l
  | 4 => 120 + l
  | 5 => 151 + l
  | 6 => 181 + l
  | 7 => 212 + l
  | 8 => 243 + l
  | 9 => 273 + l
  | 10 => 304 + l
  | _ => 334 + l
  end.

Definition monthOfYearDay (leap : bool) (d : Z) : Z :=
  if d <? monthStart leap 1 then 0
  else if d <? monthStart leap 2 then 1
  else if d <? monthStart leap 3 then 2
  else if d <? monthStart leap 4 then 3
  else if d <? monthStart leap 5 then 4
  else if d <? monthStart leap 6 then 5
  else if d <? monthStart leap 7 then 6
  else if d <? monthStart leap 8 then 7
  else if d <? monthStart leap 9 then 8
  else if d <? monthStart leap 10 then 9
  else if d <? monthStart leap 11 then 10
  else 11.

Definition MonthFromTime (t : Z) : Z :=
  monthOfYearDay (InLeapYear t) (DayWithinYear t).

Definition DateFromTime (t : Z) : Z :=
  DayWithinYear t - monthStart (InLeapYear t) (MonthFromTime t) + 1.

(** [MakeDay(year, month, date)]: months outside 0..11 carry into the year,
    and a day of the month outside the month's range carries into the
    neighbouring months. *)
Definition MakeDay (year month date : Z) : Z :=
  let ym := year + month / 12 in
  let mn := month mod 12 in
  DayFromYear ym + monthStart (leapYear ym) mn + date - 1.

(** Days in month [m] (0 = January). *)
Definition DaysInMonth (leap : bool) (m : Z) : Z :=
  match m with
  | 1 => if leap then 29 else 28
  | 3 | 5 | 8 | 10 => 30
  | _ => 31
  end.

Definition getFullYear := YearFromTime.
Definition getMonth := MonthFromTime.
Definition getDate := DateFromTime.

Definition setFullYear (t year : Z) : Z :=
  MakeDate (MakeDay year (MonthFromTime t) (DateFromTime t)) (TimeWithinDay t).

Definition setMonth (t month : Z) : Z :=
  MakeDate (MakeDay (YearFromTime t) month (DateFromTime t)) (TimeWithinDay t).

Definition setDate (t date : Z) : Z :=
  MakeDate (MakeDay (YearFromTime t) (MonthFromTime t) date) (TimeWithinDay t).

(** Decimal rendering of a natural number, left-padded with zeros. *)
Definition pad (width : nat) (z : Z) : string :=
  let s := decimal z in
  string_of_list_ascii (repeat "0"%char (width - String.length s))
  ++ s.

Definition isoYear (y : Z) : string :=
  if (0 <=? y) && (y <=? 9999) then pad 4 y
  else (if y <? 0 then "-" else "+") ++ pad 6 (Z.abs y).

(** [toISOString().split('T')[0]]: the calendar date of the time value. *)
Definition toISODate (t : Z) : string :=
  isoYear (YearFromTime t) ++ "-" ++ pad 2 (MonthFromTime t + 1)
  ++ "-" ++ pad 2 (DateFromTime t).

Definition toISOString (t : Z) : string :=
  let ms := TimeWithinDay t in
  toISODate t ++ "T" ++ pad 2 (ms / 3600000) ++ ":"
  ++ pad 2 (ms / 60000 mod 60) ++ ":" ++ pad 2 (ms / 1000 mod 60)
  ++ "." ++ pad 3 (ms mod 1000) ++ "Z".

Definition digit (c : ascii) : option Z :=
  let n := Z.of_nat (nat_of_ascii c) in
  if (48 <=? n) && (n <=? 57) then Some (n - 48) else None.

Fixpoint digits (acc : Z) (cs : list ascii) : option Z :=
  match cs with
  | [] => Some acc
  | c :: cs' =>
      match digit c with
      | Some d => digits (10 * acc + d) cs'
      | None => None
      end
  end.

(** [Date.parse] on the date-only form [YYYY-MM-DD], which denotes midnight
    UTC.  V8 accepts any day from 1 to 31 and lets [MakeDay] carry it over.
    Every other format is treated as unparseable. *)
Definition parseDate (s : string) : option Z :=
  match list_ascii_of_string s with
  | [y1; y2; y3; y4; d1; m1; m2; d2; a1; a2] =>
      if (Ascii.eqb d1 "-" && Ascii.eqb d2 "-")%bool then
        match digits 0 [y1; y2; y3; y4], digits 0 [m1; m2], digits 0 [a1; a2] with
        | Some y, Some m, Some d =>
            if (1 <=? m) && (m <=? 12) && (1 <=? d) && (d <=? 31)
            then Some (MakeDate (MakeDay y (m - 1) d) 0)
            else None
        | _, _, _ => None
        end
      else None
  | _ => None
  end.

(** [new Date(v)]: the time value, or [None] for an Invalid Date. *)
Definition newDate (v : value) : option Z :=
  match v with
  | Undefined => None
  | Null => Some 0
  | Bool b => Some (if b then 1 else 0)
  | Num z => Some z
  | Str s => parseDate s
  | Inherited _ => None
  end.

End JSDate.

(* ================================================================== *)
(** * [crypto.createHmac('sha256', key).update(body).digest('hex')]

    SHA-256 (FIPS 180-4) and HMAC (RFC 2104) over the bytes of a string;
    32-bit words are integers with their wrap-around written out. *)

Module Crypto.

Definition word (x : Z) : Z := x mod 2 ^ 32.
Definition rotr (n x : Z) : Z :=
  Z.lor (Z.shiftr x n) (word (Z.shiftl x (32 - n))).

Definition ch (x y z : Z) : Z :=
  Z.lxor (Z.land x y) (Z.land (Z.lxor x (2 ^ 32 - 1)) z).
Definition maj (x y z : Z) : Z :=
  Z.lxor (Z.lxor (Z.land x y) (Z.land x z)) (Z.land y z).
Definition bigSigma0 (x : Z) : Z :=
  Z.lxor (Z.lxor (rotr 2 x) (rotr 13 x)) (rotr 22 x).
Definition bigSigma1 (x : Z) : Z :=
  Z.lxor (Z.lxor (rotr 6 x) (rotr 11 x)) (rotr 25 x).
Definition smallSigma0 (x : Z) : Z :=
  Z.lxor (Z.lxor (rotr 7 x) (rotr 18 x)) (Z.shiftr x 3).
Definition smallSigma1 (x : Z) : Z :=
  Z.lxor (Z.lxor (rotr 17 x) (rotr 19 x)) (Z.shiftr x 10).

(** The round constants are the leading 32 fractional bits of the cube
    roots of the first 64 primes, and the initial state those of the square
    roots of the first 8; both are computed rather than tabulated. *)
Definition isPrime (n : Z) : bool :=
  forallb (fun d => negb (n mod Z.of_nat d =? 0)) (seq 2 (Z.to_nat n - 2)).

Definition primes : list Z :=
  firstn 64 (filter isPrime (map Z.of_nat (seq 2 320))).

Fixpoint cubeRootBits (bits : nat) (r n : Z) : Z :=
  match bits with
  | O => r
  | S b =>
      let c := r + 2 ^ Z.of_nat b in
      cubeRootBits b (if c * c * c <=? n then c else r) n
  end.

Definition roundConstants : list Z :=
  Eval vm_compute in map (fun p => word (cubeRootBits 40 0 (p * 2 ^ 96))) primes.

Definition initialState : list Z :=
  Eval vm_compute in map (fun p => word (Z.sqrt (p * 2 ^ 64))) (firstn 8 primes).

Definition bytesOf (s : string) : list Z :=
  map (fun c => Z.of_nat (nat_of_ascii c)) (list_ascii_of_string s).

Definition bigEndian (width : nat) (x : Z) : list Z :=
  map (fun i => Z.shiftr x (8 * Z.of_nat i) mod 256) (rev (seq 0 width)).

(** Padding to a multiple of 64 bytes: a 1 bit, zeros, the bit length. *)
Definition padded (msg : list Z) : list Z :=
  let len := Z.of_nat (List.length msg) in
  let zeros := Z.to_nat ((55 - len) mod 64) in
  (msg ++ [128] ++ repeat 0 zeros ++ bigEndian 8 (8 * len))%list.

Fixpoint wordsOf (fuel : nat) (bs : list Z) : list Z :=
  match fuel, bs with
  | S f, b0 :: b1 :: b2 :: b3 :: rest =>
      (((b0 * 256 + b1) * 256 + b2) * 256 + b3) :: wordsOf f rest
  | _, _ => []
  end.

(** The message schedule, most recent word first. *)
Fixpoint extend (n : nat) (ws : list Z) : list Z :=
  match n with
  | O => ws
  | S n' =>
      let w := word (smallSigma1 (nth 1 ws 0) + nth 6 ws 0
                     + smallSigma0 (nth 14 ws 0) + nth 15 ws 0) in
      extend n' (w :: ws)
  end.

Definition schedule (block : list Z) : list Z :=
  rev (extend 48 (rev block)).

Definition round (s : list Z) (kw : Z * Z) : list Z :=
  match s with
  | [a; b; c; d; e; f; g; h] =>
      let t1 := h + bigSigma1 e + ch e f g + fst kw + snd kw in
      let t2 := bigSigma0 a + maj a b c in
      [word (t1 + t2); a; b; c; word (d + t1); e; f; g]
  | _ => s
  end.

Definition compress (h : list Z) (block : list Z) : list Z :=
  let s := fold_left round (combine roundConstants (schedule block)) h in
  map (fun p => word (fst p + snd p)) (combine h s).

Fixpoint blocks (fuel : nat) (ws : list Z) : list (list Z) :=
  match fuel, ws with
  | _, [] => []
  | O, _ => []
  | S f, _ => firstn 16 ws :: blocks f (skipn 16 ws)
  end.

Definition sha256 (msg : list Z) : list Z :=
  let ws := wordsOf (List.length msg + 72) (padded msg) in
  let h := fold_left compress (blocks (List.length ws) ws) initialState in
  flat_map (bigEndian 4) h.

Definition hmacSha256 (key msg : list Z) : list Z :=
  let k := if (64 <? Z.of_nat (List.length key)) then sha256 key else key in
  let k := (k ++ repeat 0 (64 - List.length k))%list in
  let ipad := map (Z.lxor 54) k in
  let opad := map (Z.lxor 92) k in
  sha256 (opad ++ sha256 (ipad ++ msg))%list.

Definition hexDigit (n : Z) : ascii :=
  ascii_of_nat (Z.to_nat (if n <? 10 then 48 + n else 87 + n)).

Definition hex (bs : list Z) : string :=
  string_of_list_ascii
    (flat_map (fun b => [hexDigit (b / 16); hexDigit (b mod 16)]) bs).

Definition hmacSha256Hex (key body : string) : string :=
  hex (hmacSha256 (bytesOf key) (bytesOf body)).

End Crypto.

(* ================================================================== *)
(** * Data exchanged with the outside *)

(** One entry of [transaction.custom_fields]. *)
Module Field.
Record t : Type := { field_id : value; title : value; value : JS.value }.
End Field.

(** [data.member], the nested donor block some events carry. *)
Module Member.
Record t : Type :=
  { first_name : value; last_name : value; email : value; phone : value }.
End Member.

(** The transaction event: the [data] object of a webhook body.  An absent
    property is [Undefined]; [custom_fields] is [None] when the property is
    absent or null, and [member] likewise. *)
Module Tx.
Record t : Type :=
  { id : value;
    amount : Q;
    transacted_at : value;
    campaign_id : value;
    campaign_title : value;
    is_recurring : value;
    plan_id : value;
    first_name : value;
    last_name : value;
    email : value;
    phone : value;
    member : option Member.t;
    custom_fields : option (list Field.t) }.
End Tx.

(** The argument of [findOrCreateContact]. *)
Module Donor.
Record t : Type :=
  { first_name : value; last_name : value; email : value; phone : value }.
End Donor.

(** The [contributionData] literal. *)
Module Contribution.
Record t : Type :=
  { contact_id : value;
    financial_type_id : value;
    total_amount : Q;
    receive_date : value;
    source : string;
    trxn_id : value;
    invoice_id : value;
    contribution_status_id : Z;
    payment_instrument_id : Z }.
End Contribution.

(** The [membershipData] object; [id] is set on renewal only and
    [join_date] on creation only. *)
Module MembershipData.
Record t : Type :=
  { contact_id : value;
    membership_type_id : Z;
    source : string;
    contribution_id : value;
    id : option value;
    join_date : option string;
    start_date : string;
    end_date : string;
    status_id : Z }.
End MembershipData.

(** The [params] argument of [civiCRMApi], one constructor per object
    literal the source passes. *)
Inductive params : Type :=
| ContactGet (email : value) (return_ : option string)
| ContactCreate (first_name last_name email : value) (phone : option value)
| ContactUpdate (id custom_820 : value)
| ContributionCreate (c : Contribution.t)
| MembershipGet (contact_id : value) (membership_type_id : Z)
| MembershipCreate (m : MembershipData.t).

Record call : Type :=
  { entity : string; action : string; parameters : params }.

(** One element of a reply's [values]. *)
Module Row.
Record t : Type :=
  { id : value; contact_id : value; custom_820 : value; end_date : value }.
End Row.

(** A reply's [values] property: absent, a list (sequential replies), or an
    object keyed by id whose entries are listed in enumeration order. *)
Inductive values : Type :=
| Absent
| Array (rows : list Row.t)
| Object (rows : list (string * Row.t)).

(** The decoded body of a CiviCRM reply ([response.data]). *)
Module Reply.
Record t : Type := { count : option Z; id : value; values : values }.
End Reply.

(** The decoded body of the Givebutter plan API. *)
Module Plan.
Record t : Type := { frequency : value }.
End Plan.

(** How an awaited HTTP request settles. *)
Inductive outcome (A : Type) : Type :=
| Resolved (data : A)
| Rejected (e : error).
Arguments Resolved {A} data.
Arguments Rejected {A} e.

(** What the process does that an observer outside can see. *)
Inductive event : Type :=
| Request (c : call)
| PlanRequest (planId : value)
| ConsoleError (line : string) (e : option error).

Definition trace := list event.

(** The parsed request body, [const { event, data } = req.body], and the
    request.  [express.json()] hands the handlers an object; a [data] that
    is absent or null is [None]. *)
Record body : Type := { event_ : value; data : option Tx.t }.

Record request : Type :=
  { signature : option string;   (* req.headers['givebutter-signature'] *)
    reqBody : body }.

(** What [res] was told to send. *)
Inductive content : Type :=
| Text (s : string)
| Json (fields : list (string * value)).

Record response : Type := { status : Z; sent : content }.

(** Everything the source file takes from its host: configuration from the
    environment, the clock, [JSON.stringify] on request bodies, and the two
    remote services, each answering a request in view of the trace so far.
    A reply body of [None] is a JSON [null].  All [new Date()] readings of
    one request are the single instant [now].  The webhook secret is taken
    to be configured, and every awaited request to settle. *)
Record world : Type :=
  { GIVEBUTTER_WEBHOOK_SECRET : string;
    GIVEBUTTER_API_KEY : value;
    now : Z;
    JSON_stringify : body -> string;
    civicrm : trace -> call -> outcome (option Reply.t);
    givebutter : trace -> value -> outcome (option Plan.t) }.

(* ================================================================== *)
(** * Asynchronous computations

    An [async] function runs from a trace to a result and a longer trace;
    [await] sequences, a rejected promise or a thrown exception
    short-circuits, and [try]/[catch] resumes. *)

Inductive result (A : Type) : Type :=
| Return (a : A)
| Throw (e : error).
Arguments Return {A} a.
Arguments Throw {A} e.

Definition async (A : Type) : Type := trace -> result A * trace.

Definition ret {A} (a : A) : async A := fun tr => (Return a, tr).
Definition throw {A} (e : error) : async A := fun tr => (Throw e, tr).

Definition bind {A B} (m : async A) (k : A -> async B) : async B :=
  fun tr =>
    match m tr with
    | (Return a, tr') => k a tr'
    | (Throw e, tr') => (Throw e, tr')
    end.

Definition tryCatch {A} (m : async A) (handler : error -> async A) : async A :=
  fun tr =>
    match m tr with
    | (Return a, tr') => (Return a, tr')
    | (Throw e, tr') => handler e tr'
    end.

Definition emit (e : event) : async unit := fun tr => (Return tt, (tr ++ [e])%list).

Declare Scope async_scope.
Delimit Scope async_scope with async.
Notation "'await' x <- m ; k" := (bind m (fun x => k))
  (at level 10, x name, m at level 100, k at level 200) : async_scope.
Notation "m ;; k" := (bind m (fun _ => k))
  (at level 100, k at level 200, right associativity) : async_scope.
Local Open Scope async_scope.

(** Reading a property of [o]: a TypeError when [o] is null or undefined. *)
Definition deref {A} (what property : string) (o : option A) : async A :=
  match o with
  | Some a => ret a
  | None =>
      throw (TypeError ("Cannot read properties of " ++ what
                        ++ " (reading '" ++ property ++ "')"))
  end.

Definition run {A} (m : async A) : result A * trace := m [].

(* ================================================================== *)
(** * Code shared verbatim by the variants *)

Module Common.
Section Host.
Variable w : world.

(** What the signature middleware decides: hand over to the route handler,
    or answer itself. *)
Inductive verdict : Type :=
| Next
| Halt (r : response).

(** [res.sendStatus(401)]. *)
Definition unauthorized : response :=
  {| status := 401; sent := Text "Unauthorized" |}.

(** [verifyGivebutterSignature(req, res, next)], the same in all four
    variants. *)
Definition verifyGivebutterSignature (req : request) : async verdict :=
  let signature :=
    match signature req with Some s => Str s | None => Undefined end in
  if negb (truthy signature) then ret Next
  else
    let body := JSON_stringify w (reqBody req) in
    let expectedSignature :=
      Crypto.hmacSha256Hex (GIVEBUTTER_WEBHOOK_SECRET w) body in
    if strictEq signature (Str expectedSignature) then ret Next
    else
      emit (ConsoleError "Invalid webhook signature" None);;
      ret (Halt unauthorized).

(** [app.post(path, verifyGivebutterSignature, handler)]. *)
Definition route (handler : request -> async response) (req : request)
  : async response :=
  await v <- verifyGivebutterSignature req;
  match v with
  | Next => handler req
  | Halt r => ret r
  end.

(** [civiCRMApi(entity, action, params)]: one request, the decoded reply
    returned as it is, a failure logged and rethrown.  (The baseline sends
    it with GET and the later variants with POST.) *)
Definition civiCRMApi (entity action : string) (p : params)
  : async (option Reply.t) :=
  fun tr =>
    let c := {| entity := entity; action := action; parameters := p |} in
    match civicrm w tr c with
    | Resolved data => (Return data, (tr ++ [Request c])%list)
    | Rejected error =>
        (Throw error,
         (tr ++ [Request c;
                 ConsoleError ("CiviCRM API Error (" ++ entity ++ "."
                               ++ action ++ "):") (Some error)])%list)
    end.

(** [vs[0]]: [None] stands for [undefined]. *)
Definition first (vs : values) : option Row.t :=
  match vs with
  | Absent => None
  | Array rows => hd_error rows
  | Object rows =>
      match find (fun kv => (fst kv =? "0")%string) rows with
      | Some kv => Some (snd kv)
      | None => None
      end
  end.

(** [Object.keys(vs)[0]]. *)
Definition firstKey (vs : values) : value :=
  match vs with
  | Absent => Undefined
  | Array [] => Undefined
  | Array (_ :: _) => Str "0"
  | Object [] => Undefined
  | Object ((k, _) :: _) => Str k
  end.

(** The identifier of a created entity, as the later variants read it:
    [r.id || (r.values && r.values[0] && r.values[0].id) ||
     (r.values && Object.keys(r.values)[0])]. *)
Definition idOf (r : Reply.t) : value :=
  or (or (Reply.id r)
         (match Reply.values r with
          | Absent => Undefined
          | vs => match first vs with
                  | None => Undefined
                  | Some row => Row.id row
                  end
          end))
     (match Reply.values r with
      | Absent => Undefined
      | vs => firstKey vs
      end).

(** [n > 0] for a possibly absent number. *)
Definition positive (n : option Z) : bool :=
  match n with Some z => 0 <? z | None => false end.

(** [...(data.phone && { phone: data.phone })]. *)
Definition phoneField (phone : value) : option value :=
  if truthy phone then Some phone else None.

(** The donor object the webhook handlers build from [data]:
    [data.x || data.member?.x] for each of the four properties. *)
Definition donorOf (data : Tx.t) : Donor.t :=
  let m f := match Tx.member data with
             | Some mem => f mem
             | None => Undefined
             end in
  {| Donor.first_name := or (Tx.first_name data) (m Member.first_name);
     Donor.last_name := or (Tx.last_name data) (m Member.last_name);
     Donor.email := or (Tx.email data) (m Member.email);
     Donor.phone := or (Tx.phone data) (m Member.phone) |}.

(** The test endpoints pass their [testData] itself. *)
Definition donorOfTest (data : Tx.t) : Donor.t :=
  {| Donor.first_name := Tx.first_name data;
     Donor.last_name := Tx.last_name data;
     Donor.email := Tx.email data;
     Donor.phone := Tx.phone data |}.

Definition unhandled : response := {| status := 200; sent := Text "OK" |}.

Definition failure (code : Z) (error : error) : response :=
  {| status := code;
     sent := Json [("success", Bool false); ("error", Str (message error))] |}.

End Host.
End Common.

(* ================================================================== *)
(** * Baseline variant (src/index.js) *)

Module Baseline.
Import Common.
Section Host.
Variable w : world.

(** [findOrCreateContact(data)], src/index.js lines 65-89. *)
Definition findOrCreateContact (data : Donor.t) : async value :=
  await searchResult <-
    civiCRMApi w "Contact" "get" (ContactGet (Donor.email data) None);
  await searchResult <- deref "null" "count" searchResult;
  if positive (Reply.count searchResult) then
    match Reply.values searchResult with
    | Absent => throw (TypeError "Cannot read properties of undefined (reading '0')")
    | vs =>
        await contact <- deref "undefined" "id" (first vs);
        ret (Row.id contact)
    end
  else
    await createResult <-
      civiCRMApi w "Contact" "create"
        (ContactCreate (Donor.first_name data) (Donor.last_name data)
           (Donor.email data) (phoneField (Donor.phone data)));
    await createResult <- deref "null" "id" createResult;
    ret (Reply.id createResult).

(** The [contributionData] literal of [createContribution], lines 95-105. *)
Definition contributionData (contactId : value) (transaction : Tx.t)
  : Contribution.t :=
  {| Contribution.contact_id := contactId;
     Contribution.financial_type_id := Num 1;
     Contribution.total_amount := Tx.amount transaction / 100;
     Contribution.receive_date :=
       or (Tx.transacted_at transaction) (Str (JSDate.toISOString (now w)));
     Contribution.source :=
       "Givebutter: "
       ++ toString (or (Tx.campaign_id transaction) (Str "Unknown Campaign"));
     Contribution.trxn_id := Tx.id transaction;
     Contribution.invoice_id := Tx.id transaction;
     Contribution.contribution_status_id := 1;
     Contribution.payment_instrument_id := 1 |}.

(** [createContribution(contactId, transaction)], lines 92-113. *)
Definition createContribution (contactId : value) (transaction : Tx.t)
  : async Reply.t :=
  await result <-
    civiCRMApi w "Contribution" "create"
      (ContributionCreate (contributionData contactId transaction));
  await result <- deref "null" "id" result;
  ret result.

(** The body of the [try] block of the webhook handler, lines 125-147. *)
Definition process (b : body) : async response :=
  if strictEq (event_ b) (Str "transaction.succeeded") then
    await data <- deref "undefined" "first_name" (data b);
    await contactId <- findOrCreateContact (donorOf data);
    await contribution <- createContribution contactId data;
    ret {| status := 200;
           sent := Json [("success", Bool true);
                         ("contact_id", contactId);
                         ("contribution_id", Reply.id contribution)] |}
  else ret unhandled.

(** The handler of [POST /webhook/givebutter], lines 116-154. *)
Definition handler (req : request) : async response :=
  tryCatch (process (reqBody req))
    (fun error =>
       emit (ConsoleError "ERROR processing webhook:" (Some error));;
       emit (ConsoleError "Stack:" (Some error));;
       ret (failure 200 error)).

Definition webhook : request -> async response := route w handler.

Definition testData : Tx.t :=
  {| Tx.id := Str ("test_" ++ decimal (now w));
     Tx.amount := 2500;
     Tx.transacted_at := Str (JSDate.toISOString (now w));
     Tx.campaign_id := Str "test-campaign";
     Tx.campaign_title := Undefined;
     Tx.is_recurring := Undefined;
     Tx.plan_id := Undefined;
     Tx.first_name := Str "Test";
     Tx.last_name := Str "Donor";
     Tx.email := Str "test@example.com";
     Tx.phone := Str "555-1234";
     Tx.member := None;
     Tx.custom_fields := None |}.

(** The body of the [try] block of the test endpoint, lines 177-199. *)
Definition testPipeline : async response :=
  await contactId <- findOrCreateContact (donorOfTest testData);
  await contribution <- createContribution contactId testData;
  ret {| status := 200;
         sent := Json [("success", Bool true);
                       ("message", Str "Test donation created successfully");
                       ("contact_id", contactId);
                       ("contribution_id", Reply.id contribution)] |}.

(** The handler of [POST /test], lines 173-205. *)
Definition test : async response :=
  tryCatch testPipeline
    (fun error =>
       emit (ConsoleError "Test failed:" (Some error));;
       ret (failure 500 error)).

End Host.
End Baseline.

(* ================================================================== *)
(** * Custom-field variant (src/unnamed/part_000, lines 1-278) *)

Module CustomField.
Import Common.

(** The label-to-id table, written out once; the three later variants
    carry the same literal ([financialTypeMapping], [localAreaMapping]). *)
Definition financialTypeMapping : table :=
  [ ("MKP USA", Num 49); ("Central Plains", Num 18); ("Chicago", Num 19);
    ("Colorado", Num 20); ("Florida", Num 21); ("Greater Carolinas", Num 23);
    ("Hawaii", Num 25); ("Heartland", Num 139); ("Intermountain", Num 28);
    ("Metro NY Tri-State", Num 36); ("Mid Atlantic", Num 24);
    ("Mid America", Num 27); ("New England", Num 34);
    ("Northern California", Num 40); ("Northwest", Num 41);
    ("Philadelphia", Num 42); ("Southern California", Num 31);
    ("South Central", Num 51); ("South East", Num 22); ("Southwest", Num 17);
    ("St. Louis", Num 45); ("Upstate New York", Num 46); ("Wisconsin", Num 48) ].

(** The callback of [custom_fields.find]. *)
Definition isLocalArea (field : Field.t) : bool :=
  strictEq (Field.title field) (Str "Local Area")
  || strictEq (Field.field_id field) (Num 64260).

(** The value of the transaction's own "Local Area" field, lines 131-137:
    the first matching entry of a non-empty [custom_fields], when that entry
    has a truthy value. *)
Definition localAreaOf (transaction : Tx.t) : option value :=
  match Tx.custom_fields transaction with
  | Some (f :: fs) =>
      match find isLocalArea (f :: fs) with
      | Some localAreaField =>
          if truthy (Field.value localAreaField)
          then Some (Field.value localAreaField)
          else None
      | None => None
      end
  | _ => None
  end.

(** The [financialTypeId] variable after lines 129-141. *)
Definition financialTypeId (transaction : Tx.t) : value :=
  match localAreaOf transaction with
  | Some label => or (get financialTypeMapping label) (Num 49)
  | None => Num 49
  end.

Section Host.
Variable w : world.

(** [findOrCreateContact(data)], lines 65-95. *)
Definition findOrCreateContact (data : Donor.t) : async value :=
  await searchResult <-
    civiCRMApi w "Contact" "get" (ContactGet (Donor.email data) None);
  await searchResult <- deref "null" "count" searchResult;
  match positive (Reply.count searchResult), Reply.values searchResult with
  | true, Array (contact :: _) =>
      ret (or (Row.id contact) (Row.contact_id contact))
  | _, _ =>
      await createResult <-
        civiCRMApi w "Contact" "create"
          (ContactCreate (Donor.first_name data) (Donor.last_name data)
             (Donor.email data) (phoneField (Donor.phone data)));
      await createResult <- deref "null" "id" createResult;
      ret (idOf createResult)
  end.

(** The [contributionData] literal, lines 143-153. *)
Definition contributionData (contactId : value) (transaction : Tx.t)
  : Contribution.t :=
  {| Contribution.contact_id := contactId;
     Contribution.financial_type_id := financialTypeId transaction;
     Contribution.total_amount := Tx.amount transaction;
     Contribution.receive_date :=
       or (Tx.transacted_at transaction) (Str (JSDate.toISOString (now w)));
     Contribution.source :=
       "Givebutter: "
       ++ toString (or (or (Tx.campaign_title transaction)
                           (Tx.campaign_id transaction))
                       (Str "Unknown Campaign"));
     Contribution.trxn_id := Tx.id transaction;
     Contribution.invoice_id := Tx.id transaction;
     Contribution.contribution_status_id := 1;
     Contribution.payment_instrument_id := 1 |}.

(** [createContribution(contactId, transaction)], lines 98-166. *)
Definition createContribution (contactId : value) (transaction : Tx.t)
  : async Reply.t :=
  await result <-
    civiCRMApi w "Contribution" "create"
      (ContributionCreate (contributionData contactId transaction));
  await result <- deref "null" "id" result;
  ret result.

(** The body of the [try] block of the webhook handler, lines 178-200. *)
Definition process (b : body) : async response :=
  if strictEq (event_ b) (Str "transaction.succeeded") then
    await data <- deref "undefined" "first_name" (data b);
    await contactId <- findOrCreateContact (donorOf data);
    await contribution <- createContribution contactId data;
    ret {| status := 200;
           sent := Json [("success", Bool true);
                         ("contact_id", contactId);
                         ("contribution_id", Reply.id contribution)] |}
  else ret unhandled.

(** The handler of [POST /webhook/givebutter], lines 169-207. *)
Definition handler (req : request) : async response :=
  tryCatch (process (reqBody req))
    (fun error =>
       emit (ConsoleError "ERROR processing webhook:" (Some error));;
       emit (ConsoleError "Stack:" (Some error));;
       ret (failure 200 error)).

Definition webhook : request -> async response := route w handler.

Definition testData : Tx.t :=
  {| Tx.id := Str ("test_" ++ decimal (now w));
     Tx.amount := 25;
     Tx.transacted_at := Str (JSDate.toISOString (now w));
     Tx.campaign_id := Str "test-campaign";
     Tx.campaign_title := Str "Test Campaign";
     Tx.is_recurring := Undefined;
     Tx.plan_id := Undefined;
     Tx.first_name := Str "Test";
     Tx.last_name := Str "Donor";
     Tx.email := Str "testdonor@example.com";
     Tx.phone := Str "555-1234";
     Tx.member := None;
     Tx.custom_fields :=
       Some [ {| Field.field_id := Num 64260;
                 Field.title := Str "Local Area";
                 Field.value := Str "Colorado" |} ] |}.

(** The body of the [try] block of the test endpoint, lines 230-262. *)
Definition testPipeline : async response :=
  await contactId <- findOrCreateContact (donorOfTest testData);
  await contribution <- createContribution contactId testData;
  ret {| status := 200;
         sent := Json [("success", Bool true);
                       ("message", Str "Test donation created successfully");
                       ("contact_id", contactId);
                       ("contribution_id", Reply.id contribution)] |}.

(** The handler of [POST /test], lines 226-268. *)
Definition test : async response :=
  tryCatch testPipeline
    (fun error =>
       emit (ConsoleError "Test failed:" (Some error));;
       ret (failure 500 error)).

End Host.
End CustomField.

(* ================================================================== *)
(** * Code shared verbatim by the two last variants

    [findOrCreateContact] (lines 367-413 and 841-891),
    [updateContactLocalArea] (lines 416-428 and 894-907) and the category
    policy at the head of [createContribution] (lines 549-634 and 916-1014)
    are the same statements in both. *)

Module LocalArea.
Import Common.

(** What [findOrCreateContact] returns. *)
Record contactInfo : Type := { id : value; localArea : value }.

Definition localAreaMapping : table := CustomField.financialTypeMapping.

Definition campaignFinancialTypeMapping : table :=
  [ ("195519", Str "use_custom_field") ].

(** [campaignFinancialTypeMapping[transaction.campaign_id]]. *)
Definition campaignMapping (transaction : Tx.t) : value :=
  get campaignFinancialTypeMapping (Tx.campaign_id transaction).

(** [localAreaValue] once lines 586-604 (960-980) have run: the
    transaction's own field if it has one with a value, else the contact's
    stored value if truthy, else [null]. *)
Definition localAreaValue (contactInfo : contactInfo) (transaction : Tx.t)
  : value :=
  let localAreaValue :=
    match CustomField.localAreaOf transaction with
    | Some v => v
    | None => Null
    end in
  if negb (truthy localAreaValue) && truthy (localArea contactInfo)
  then localArea contactInfo
  else localAreaValue.

(** [shouldUpdateContact] once lines 586-599 (960-974) have run. *)
Definition shouldUpdateContact (contactInfo : contactInfo) (transaction : Tx.t)
  : bool :=
  match CustomField.localAreaOf transaction with
  | Some v =>
      negb (truthy (localArea contactInfo))
      || negb (strictEq (localArea contactInfo) v)
  | None => false
  end.

(** Whether [updateContactLocalArea] is awaited (lines 606-608, 983-985):
    only under the custom-field policy, when the transaction brought a
    value the contact does not already store. *)
Definition writesBack (contactInfo : contactInfo) (transaction : Tx.t) : bool :=
  strictEq (campaignMapping transaction) (Str "use_custom_field")
  && shouldUpdateContact contactInfo transaction
  && truthy (localAreaValue contactInfo transaction).

(** [financialTypeId] when the [contributionData] literal is built. *)
Definition financialTypeId (contactInfo : contactInfo) (transaction : Tx.t)
  : value :=
  let campaignMapping := campaignMapping transaction in
  if strictEq campaignMapping (Str "use_custom_field") then
    let localAreaValue := localAreaValue contactInfo transaction in
    if truthy localAreaValue
    then or (get localAreaMapping localAreaValue) (Num 49)
    else Num 49
  else if truthy campaignMapping then campaignMapping
  else Num 49.

Section Host.
Variable w : world.

(** [findOrCreateContact(data)]. *)
Definition findOrCreateContact (data : Donor.t) : async contactInfo :=
  await searchResult <-
    civiCRMApi w "Contact" "get"
      (ContactGet (Donor.email data) (Some "id,display_name,custom_820"));
  await searchResult <- deref "null" "count" searchResult;
  match positive (Reply.count searchResult), Reply.values searchResult with
  | true, Array (contact :: _) =>
      let contactId := or (Row.id contact) (Row.contact_id contact) in
      let storedLocalArea := or (Row.custom_820 contact) Null in
      ret {| id := contactId; localArea := storedLocalArea |}
  | _, _ =>
      await createResult <-
        civiCRMApi w "Contact" "create"
          (ContactCreate (Donor.first_name data) (Donor.last_name data)
             (Donor.email data) (phoneField (Donor.phone data)));
      await createResult <- deref "null" "id" createResult;
      ret {| id := idOf createResult; localArea := Null |}
  end.

(** [updateContactLocalArea(contactId, localArea)]. *)
Definition updateContactLocalArea (contactId localArea : value) : async unit :=
  tryCatch
    (await _ <- civiCRMApi w "Contact" "create"
                  (ContactUpdate contactId localArea);
     ret tt)
    (fun error =>
       emit (ConsoleError "Failed to update contact Local Area:" (Some error))).

(** The category policy: the value of [financialTypeId] when the
    [contributionData] literal is built. *)
Definition resolveFinancialType (contactInfo : contactInfo) (transaction : Tx.t)
  : async value :=
  let campaignMapping := campaignMapping transaction in
  if strictEq campaignMapping (Str "use_custom_field") then
    let localAreaValue := localAreaValue contactInfo transaction in
    (if shouldUpdateContact contactInfo transaction && truthy localAreaValue
     then updateContactLocalArea (id contactInfo) localAreaValue
     else ret tt);;
    if truthy localAreaValue
    then ret (or (get localAreaMapping localAreaValue) (Num 49))
    else ret (Num 49)
  else if truthy campaignMapping then ret campaignMapping
  else ret (Num 49).

(** The [contributionData] literal. *)
Definition contributionData (contactInfo : contactInfo) (transaction : Tx.t)
  (financialTypeId : value) : Contribution.t :=
  {| Contribution.contact_id := id contactInfo;
     Contribution.financial_type_id := financialTypeId;
     Contribution.total_amount := Tx.amount transaction;
     Contribution.receive_date :=
       or (Tx.transacted_at transaction) (Str (JSDate.toISOString (now w)));
     Contribution.source :=
       "Givebutter: "
       ++ toString (or (or (Tx.campaign_title transaction)
                           (Tx.campaign_id transaction))
                       (Str "Unknown Campaign"));
     Contribution.trxn_id := Tx.id transaction;
     Contribution.invoice_id := Tx.id transaction;
     Contribution.contribution_status_id := 1;
     Contribution.payment_instrument_id := 1 |}.

(** The shape shared by the two webhook handlers: the [try] block and the
    [catch] that answers 200. *)
Definition process
  (createContribution : contactInfo -> Tx.t -> async Reply.t) (b : body)
  : async response :=
  if strictEq (event_ b) (Str "transaction.succeeded") then
    await data <- deref "undefined" "first_name" (data b);
    await contactInfo <- findOrCreateContact (donorOf data);
    await contribution <- createContribution contactInfo data;
    ret {| status := 200;
           sent := Json [("success", Bool true);
                         ("contact_id", id contactInfo);
                         ("contribution_id", Reply.id contribution)] |}
  else ret unhandled.

Definition handler
  (createContribution : contactInfo -> Tx.t -> async Reply.t) (req : request)
  : async response :=
  tryCatch (process createContribution (reqBody req))
    (fun error =>
       emit (ConsoleError "ERROR processing webhook:" (Some error));;
       emit (ConsoleError "Stack:" (Some error));;
       ret (failure 200 error)).

End Host.
End LocalArea.

(* ================================================================== *)
(** * Membership variant (src/unnamed/part_000, lines 279-776) *)

Module Membership.
Import Common LocalArea.

(** The [membershipDuration] literal: [{ years: n }] or [{ months: n }]. *)
Record duration : Type := { years : option Z; months : option Z }.

Definition oneYear : duration := {| years := Some 1; months := None |}.
Definition monthsOf (n : Z) : duration := {| years := None; months := Some n |}.

(** Truthiness of a possibly absent number. *)
Definition set (n : option Z) : bool :=
  match n with Some z => negb (z =? 0) | None => false end.

Definition numberOf (n : option Z) : Z :=
  match n with Some z => z | None => 0 end.

(** The type and duration decision, lines 436-464. *)
Definition membershipPolicy (transaction : Tx.t) (frequency : value)
  : Z * duration :=
  if negb (truthy (Tx.is_recurring transaction)) then (11, oneYear)
  else if strictEq frequency (Str "monthly") then (10, monthsOf 1)
  else if strictEq frequency (Str "yearly")
          || strictEq frequency (Str "annual") then (9, oneYear)
  else if strictEq frequency (Str "quarterly") then (10, monthsOf 3)
  else (11, oneYear).

(** The end date for a window opening at [startDate], lines 480-484 and
    505-509: [endDate] starts as a copy of (or a reading of the clock equal
    to) [startDate] and has its year or its month moved forward. *)
Definition endOf (membershipDuration : duration) (startDate : Z) : Z :=
  let endDate := startDate in
  if set (years membershipDuration) then
    JSDate.setFullYear endDate
      (JSDate.getFullYear startDate + numberOf (years membershipDuration))
  else if set (months membershipDuration) then
    JSDate.setMonth endDate
      (JSDate.getMonth startDate + numberOf (months membershipDuration))
  else endDate.

(** [existingEndDate > today], false for an Invalid Date. *)
Definition after (existingEndDate : option Z) (today : Z) : bool :=
  match existingEndDate with
  | Some t => today <? t
  | None => false
  end.

(** [startDate] when an existing membership is found, lines 494-510. *)
Definition renewalStart (today : Z) (existingEndDate : option Z) : Z :=
  match existingEndDate with
  | Some t =>
      if after existingEndDate today
      then JSDate.setDate t (JSDate.getDate t + 1)
      else today
  | None => today
  end.

Definition sourceOf (transaction : Tx.t) : string :=
  "Givebutter: "
  ++ toString (or (Tx.campaign_title transaction) (Tx.campaign_id transaction)).

(** [membershipData] as sent when an existing membership is renewed. *)
Definition renewal (today : Z) (contactId contributionId : value)
  (transaction : Tx.t) (membershipTypeId : Z) (membershipDuration : duration)
  (existing : Row.t) : MembershipData.t :=
  let existingEndDate := JSDate.newDate (Row.end_date existing) in
  let startDate := renewalStart today existingEndDate in
  let endDate := endOf membershipDuration startDate in
  {| MembershipData.contact_id := contactId;
     MembershipData.membership_type_id := membershipTypeId;
     MembershipData.source := sourceOf transaction;
     MembershipData.contribution_id := contributionId;
     MembershipData.id := Some (Row.id existing);
     MembershipData.join_date := None;
     MembershipData.start_date := JSDate.toISODate startDate;
     MembershipData.end_date := JSDate.toISODate endDate;
     MembershipData.status_id := 1 |}.

(** [membershipData] as sent when no membership exists. *)
Definition creation (today : Z) (contactId contributionId : value)
  (transaction : Tx.t) (membershipTypeId : Z) (membershipDuration : duration)
  : MembershipData.t :=
  let startDate := today in
  let endDate := endOf membershipDuration startDate in
  {| MembershipData.contact_id := contactId;
     MembershipData.membership_type_id := membershipTypeId;
     MembershipData.source := sourceOf transaction;
     MembershipData.contribution_id := contributionId;
     MembershipData.id := None;
     MembershipData.join_date := Some (JSDate.toISODate today);
     MembershipData.start_date := JSDate.toISODate startDate;
     MembershipData.end_date := JSDate.toISODate endDate;
     MembershipData.status_id := 1 |}.

Section Host.
Variable w : world.

(** [getGivebutterPlan(planId)], lines 321-341. *)
Definition getGivebutterPlan (planId : value) : async (option Plan.t) :=
  if negb (truthy planId) || negb (truthy (GIVEBUTTER_API_KEY w)) then ret None
  else
    fun tr =>
      match givebutter w tr planId with
      | Resolved data => (Return data, (tr ++ [PlanRequest planId])%list)
      | Rejected error =>
          (Return None,
           (tr ++ [PlanRequest planId;
                   ConsoleError "Failed to fetch plan from Givebutter:"
                     (Some error)])%list)
      end.

(** The [try] block of [createOrRenewMembership], lines 466-535. *)
Definition upsert (contactId contributionId : value) (transaction : Tx.t)
  (membershipTypeId : Z) (membershipDuration : duration) : async value :=
  await existingMembership <-
    civiCRMApi w "Membership" "get" (MembershipGet contactId membershipTypeId);
  let today := now w in
  await existingMembership <- deref "null" "count" existingMembership;
  await membershipData <-
    (if positive (Reply.count existingMembership) then
       match Reply.values existingMembership with
       | Absent =>
           throw (TypeError "Cannot read properties of undefined (reading '0')")
       | vs =>
           await existing <- deref "undefined" "id" (first vs);
           ret (renewal today contactId contributionId transaction
                  membershipTypeId membershipDuration existing)
       end
     else
       ret (creation today contactId contributionId transaction
              membershipTypeId membershipDuration));
  await result <-
    civiCRMApi w "Membership" "create" (MembershipCreate membershipData);
  await result <- deref "null" "id" result;
  ret (idOf result).

(** [createOrRenewMembership(contactId, contributionId, transaction,
    frequency)], lines 431-541. *)
Definition createOrRenewMembership (contactId contributionId : value)
  (transaction : Tx.t) (frequency : value) : async value :=
  let '(membershipTypeId, membershipDuration) :=
    membershipPolicy transaction frequency in
  tryCatch
    (upsert contactId contributionId transaction
       membershipTypeId membershipDuration)
    (fun error =>
       emit (ConsoleError "Failed to create/renew membership:" (Some error));;
       ret Null).

(** The [frequency] variable of [createContribution], lines 648-656. *)
Definition frequencyOf (transaction : Tx.t) : async value :=
  if truthy (Tx.plan_id transaction) then
    await planDetails <- getGivebutterPlan (Tx.plan_id transaction);
    match planDetails with
    | Some plan =>
        if truthy (Plan.frequency plan) then ret (Plan.frequency plan)
        else ret Null
    | None => ret Null
    end
  else ret Null.

(** The membership step that closes [createContribution], lines
    646-659. *)
Definition membershipFor (contactInfo : contactInfo) (contributionId : value)
  (transaction : Tx.t) : async unit :=
  if strictEq (Tx.campaign_id transaction) (Str "195519") then
    await frequency <- frequencyOf transaction;
    await _ <- createOrRenewMembership (id contactInfo) contributionId
                 transaction frequency;
    ret tt
  else ret tt.

(** [createContribution(contactInfo, transaction)], lines 544-662. *)
Definition createContribution (contactInfo : contactInfo) (transaction : Tx.t)
  : async Reply.t :=
  await financialTypeId <- resolveFinancialType w contactInfo transaction;
  await result <-
    civiCRMApi w "Contribution" "create"
      (ContributionCreate
         (contributionData w contactInfo transaction financialTypeId));
  await result <- deref "null" "id" result;
  let contributionId := idOf result in
  membershipFor contactInfo contributionId transaction;;
  ret result.

(** [POST /webhook/givebutter], lines 665-703. *)
Definition webhook : request -> async response :=
  route w (handler w createContribution).

Definition testData : Tx.t :=
  {| Tx.id := Str ("test_" ++ decimal (now w));
     Tx.amount := 25;
     Tx.transacted_at := Str (JSDate.toISOString (now w));
     Tx.campaign_id := Str "195519";
     Tx.campaign_title := Str "Test Campaign";
     Tx.is_recurring := Bool true;
     Tx.plan_id := Null;
     Tx.first_name := Str "Test";
     Tx.last_name := Str "Donor";
     Tx.email := Str "testdonor@example.com";
     Tx.phone := Str "555-1234";
     Tx.member := None;
     Tx.custom_fields :=
       Some [ {| Field.field_id := Num 64260;
                 Field.title := Str "Local Area";
                 Field.value := Str "Colorado" |} ] |}.

(** The body of the [try] block of the test endpoint, lines 727-760. *)
Definition testPipeline : async response :=
  await contactInfo <- findOrCreateContact w (donorOfTest testData);
  await contribution <- createContribution contactInfo testData;
  ret {| status := 200;
         sent := Json [("success", Bool true);
                       ("message", Str "Test donation created successfully");
                       ("contact_id", id contactInfo)] |}.

(** [POST /test], lines 723-766. *)
Definition test : async response :=
  tryCatch testPipeline
    (fun error =>
       emit (ConsoleError "Test failed:" (Some error));;
       ret (failure 500 error)).

End Host.
End Membership.

(* ================================================================== *)
(** * Campaign variant (src/unnamed/part_000, lines 777-1141) *)

Module Campaign.
Import Common LocalArea.
Section Host.
Variable w : world.

(** [createContribution(contactInfo, transaction)], lines 910-1027. *)
Definition createContribution (contactInfo : contactInfo) (transaction : Tx.t)
  : async Reply.t :=
  await financialTypeId <- resolveFinancialType w contactInfo transaction;
  await result <-
    civiCRMApi w "Contribution" "create"
      (ContributionCreate
         (contributionData w contactInfo transaction financialTypeId));
  await result <- deref "null" "id" result;
  ret result.

(** [POST /webhook/givebutter], lines 1030-1068. *)
Definition webhook : request -> async response :=
  route w (handler w createContribution).

Definition testData : Tx.t :=
  {| Tx.id := Str ("test_" ++ decimal (now w));
     Tx.amount := 25;
     Tx.transacted_at := Str (JSDate.toISOString (now w));
     Tx.campaign_id := Str "195519";
     Tx.campaign_title := Str "Test Campaign";
     Tx.is_recurring := Undefined;
     Tx.plan_id := Undefined;
     Tx.first_name := Str "Test";
     Tx.last_name := Str "Donor";
     Tx.email := Str "testdonor@example.com";
     Tx.phone := Str "555-1234";
     Tx.member := None;
     Tx.custom_fields :=
       Some [ {| Field.field_id := Num 64260;
                 Field.title := Str "Local Area";
                 Field.value := Str "Colorado" |} ] |}.

(** The body of the [try] block of the test endpoint, lines 1091-1125. *)
Definition testPipeline : async response :=
  await contactInfo <- findOrCreateContact w (donorOfTest testData);
  await contribution <- createContribution contactInfo testData;
  ret {| status := 200;
         sent := Json [("success", Bool true);
                       ("message", Str "Test donation created successfully");
                       ("contact_id", id contactInfo);
                       ("contribution_id", Reply.id contribution)] |}.

(** [POST /test], lines 1087-1131. *)
Definition test : async response :=
  tryCatch testPipeline
    (fun error =>
       emit (ConsoleError "Test failed:" (Some error));;
       ret (failure 500 error)).

End Host.
End Campaign.

(* ================================================================== *)
(** * Reading traces *)

Module Observe.

Definition requestTo (ent act : string) (e : event) : bool :=
  match e with
  | Request c => ((entity c =? ent) && (action c =? act))%string
  | _ => false
  end.

(** The requests of a trace addressed to [entity.action]. *)
Definition requestsTo (ent act : string) (tr : trace) : list event :=
  filter (requestTo ent act) tr.

Definition isRequest (e : event) : bool :=
  match e with
  | Request _ | PlanRequest _ => true
  | ConsoleError _ _ => false
  end.

(** The write of the stored local area back onto the contact. *)
Definition isWriteBack (e : event) : bool :=
  match e with
  | Request {| parameters := ContactUpdate _ _ |} => true
  | _ => false
  end.

Definition isContributionCreate (e : event) : bool :=
  match e with
  | Request {| parameters := ContributionCreate _ |} => true
  | _ => false
  end.

(** Events other than the write-back and the contribution request. *)
Definition aside (e : event) : bool :=
  negb (isWriteBack e) && negb (isContributionCreate e).

(** Some event satisfying [P] is followed, later in the trace, by one
    satisfying [Q]. *)
Fixpoint issuedBefore (P Q : event -> bool) (tr : trace) : bool :=
  match tr with
  | [] => false
  | e :: rest => (P e && existsb Q rest) || issuedBefore P Q rest
  end.

(** A computation only ever adds to the trace it is started on, and what
    it adds are events that satisfy [P]. *)
Definition adds (P : event -> bool) {A : Type} (m : async A) : Prop :=
  forall tr, exists more,
    snd (m tr) = (tr ++ more)%list /\ forallb P more = true.

Definition anything (_ : event) : bool := true.

Definition grows {A : Type} (m : async A) : Prop := adds anything m.

(** The [Contribution.create] request carrying [c], and the request that
    writes [localArea] back onto contact [contactId]. *)
Definition submit (c : Contribution.t) : call :=
  {| entity := "Contribution"; action := "create";
     parameters := ContributionCreate c |}.

Definition writeBack (contactId localArea : value) : call :=
  {| entity := "Contact"; action := "create";
     parameters := ContactUpdate contactId localArea |}.

(** The console lines a failed write-back leaves: the one of
    [civiCRMApi] and the one of the [catch] in [updateContactLocalArea]. *)
Definition updateLog (w : world) (contactInfo : LocalArea.contactInfo)
  (transaction : Tx.t) (tr : trace) : list event :=
  match civicrm w tr (writeBack (LocalArea.id contactInfo)
                        (LocalArea.localAreaValue contactInfo transaction)) with
  | Resolved _ => []
  | Rejected e =>
      [ConsoleError "CiviCRM API Error (Contact.create):" (Some e);
       ConsoleError "Failed to update contact Local Area:" (Some e)]
  end.

(** The status a computation answers with, if it answers. *)
Definition statusOf (r : result response * trace) : option Z :=
  match fst r with
  | Return resp => Some (status resp)
  | Throw _ => None
  end.

End Observe.

(* ================================================================== *)
(** * Membership windows in calendar terms

    The vocabulary in which the membership window is specified: day
    numbers, the date string of a day, and a duration added to a day. *)

Module Window.
Import JSDate Membership.

(** The [YYYY-MM-DD] rendering of a day number. *)
Definition dateOfDay (day : Z) : string := toISODate (MakeDate day 0).

(** The day [years] years and [months] months after [day]: the same day of
    the month in the target month, carried into the following month when
    the target month is too short to have it. *)
Definition plusDuration (d : duration) (day : Z) : Z :=
  let t := MakeDate day 0 in
  MakeDay (YearFromTime t + numberOf (years d))
          (MonthFromTime t + numberOf (months d))
          (DateFromTime t).

(** The day a window opens on, given today's instant and the parsed end of
    an existing membership. *)
Definition startDay (today : Z) (existingEndDate : option Z) : Z :=
  match existingEndDate with
  | Some t => if today <? t then Day t + 1 else Day today
  | None => Day today
  end.

(** The [Membership.get] request of an upsert. *)
Definition lookup (contactId : value) (membershipTypeId : Z) : call :=
  {| entity := "Membership"; action := "get";
     parameters := MembershipGet contactId membershipTypeId |}.

(** The [Membership.create] request of an upsert. *)
Definition write (m : MembershipData.t) : call :=
  {| entity := "Membership"; action := "create";
     parameters := MembershipCreate m |}.

End Window.

(* ================================================================== *)
(** * Contact resolution in terms of requests *)

Module Resolution.
Import Common.

(** The [Contact.get] request of a resolution; [fields] is the [return]
    parameter the two last variants add. *)
Definition lookup (data : Donor.t) (fields : option string) : call :=
  {| entity := "Contact"; action := "get";
     parameters := ContactGet (Donor.email data) fields |}.

(** The [Contact.create] request that makes a new contact. *)
Definition create (data : Donor.t) : call :=
  {| entity := "Contact"; action := "create";
     parameters :=
       ContactCreate (Donor.first_name data) (Donor.last_name data)
         (Donor.email data) (phoneField (Donor.phone data)) |}.

(** The contact a lookup reply reports, if it reports one.  The baseline
    reads [count > 0] alone as a match and then takes [values[0]]; the
    later variants want a non-empty [values] list besides. *)
Definition reportsBaseline (found : Reply.t) : bool :=
  positive (Reply.count found).

Definition reportsLater (found : Reply.t) : option Row.t :=
  match positive (Reply.count found), Reply.values found with
  | true, Array (contact :: _) => Some contact
  | _, _ => None
  end.

(** The [Contact.create] requests of a trace. *)
Definition creations (tr : trace) : list event :=
  Observe.requestsTo "Contact" "create" tr.

End Resolution.

(* ================================================================== *)
(** * The health endpoint *)

Module Health.

(** The module-scope constants read from [process.env]; an unset variable
    is [Undefined]. *)
Record config : Type :=
  { GIVEBUTTER_WEBHOOK_SECRET : value;
    GIVEBUTTER_API_KEY : value;
    CIVICRM_BASE_URL : value;
    CIVICRM_SITE_KEY : value;
    CIVICRM_API_KEY : value }.

(** [`${CIVICRM_BASE_URL}/sites/all/modules/civicrm/extern/rest.php`]. *)
Definition CIVICRM_REST_URL (c : config) : string :=
  toString (CIVICRM_BASE_URL c) ++ "/sites/all/modules/civicrm/extern/rest.php".

(** The object [GET /health] answers with. *)
Record report : Type :=
  { status : string;
    timestamp : string;
    civicrm_endpoint : string;
    flags : list (string * bool) }.

(** The handler of [GET /health] in the baseline, the custom-field and the
    campaign variant (src/index.js lines 157-170, part_000 lines 210-223
    and 1071-1084). *)
Definition health (c : config) (now : Z) : report :=
  {| status := "ok";
     timestamp := JSDate.toISOString now;
     civicrm_endpoint := CIVICRM_REST_URL c;
     flags :=
       [ ("hasGivebutterSecret", truthy (GIVEBUTTER_WEBHOOK_SECRET c));
         ("hasCiviCRMUrl", truthy (CIVICRM_BASE_URL c));
         ("hasSiteKey", truthy (CIVICRM_SITE_KEY c));
         ("hasApiKey", truthy (CIVICRM_API_KEY c)) ] |}.

(** The same in the membership variant (part_000 lines 706-720), which
    reports the Givebutter API key besides. *)
Definition healthWithPlans (c : config) (now : Z) : report :=
  {| status := "ok";
     timestamp := JSDate.toISOString now;
     civicrm_endpoint := CIVICRM_REST_URL c;
     flags :=
       [ ("hasGivebutterSecret", truthy (GIVEBUTTER_WEBHOOK_SECRET c));
         ("hasGivebutterApiKey", truthy (GIVEBUTTER_API_KEY c));
         ("hasCiviCRMUrl", truthy (CIVICRM_BASE_URL c));
         ("hasSiteKey", truthy (CIVICRM_SITE_KEY c));
         ("hasApiKey", truthy (CIVICRM_API_KEY c)) ] |}.

(** Two configurations that differ at most in the values of the secrets
    that are set. *)
Definition sameButSecrets (c c' : config) : Prop :=
  CIVICRM_BASE_URL c = CIVICRM_BASE_URL c'
  /\ truthy (GIVEBUTTER_WEBHOOK_SECRET c) = truthy (GIVEBUTTER_WEBHOOK_SECRET c')
  /\ truthy (GIVEBUTTER_API_KEY c) = truthy (GIVEBUTTER_API_KEY c')
  /\ truthy (CIVICRM_SITE_KEY c) = truthy (CIVICRM_SITE_KEY c')
  /\ truthy (CIVICRM_API_KEY c) = truthy (CIVICRM_API_KEY c').

End Health.

(* ================================================================== *)
(** * More ways to read a trace *)

Module Watch.

Definition isMembershipRequest (e : event) : bool :=
  match e with
  | Request {| parameters := MembershipGet _ _ |} => true
  | Request {| parameters := MembershipCreate _ |} => true
  | _ => false
  end.

Definition isPlanRequest (e : event) : bool :=
  match e with
  | PlanRequest _ => true
  | _ => false
  end.

Definition isMembershipWrite (e : event) : bool :=
  match e with
  | Request {| parameters := MembershipCreate _ |} => true
  | _ => false
  end.

(** Events that are not about memberships or plans. *)
Definition noMembership (e : event) : bool :=
  negb (isMembershipRequest e) && negb (isPlanRequest e).

(** Events other than a contribution request. *)
Definition noContribution (e : event) : bool :=
  negb (Observe.isContributionCreate e).

(** A membership write carries the contact [contactId] and the
    contribution [contributionId]; other events pass. *)
Definition linkedTo (contactId contributionId : value) (e : event) : bool :=
  match e with
  | Request {| parameters := MembershipCreate m |} =>
      strictEq (MembershipData.contact_id m) contactId
      && strictEq (MembershipData.contribution_id m) contributionId
  | _ => true
  end.

(** How many events of a trace satisfy [P]. *)
Definition count (P : event -> bool) (tr : trace) : nat :=
  List.length (filter P tr).

(** The events a computation adds to the trace it is started on. *)
Definition added {A : Type} (m : async A) (tr : trace) : list event :=
  skipn (List.length tr) (snd (m tr)).

(** How many contribution requests a computation sends when it is started
    on [tr]. *)
Definition contributions {A : Type} (m : async A) (tr : trace) : nat :=
  count Observe.isContributionCreate (added m tr).

(** A delivery reaches the contribution step: the event is
    [transaction.succeeded], it carries a data object, and the contact
    resolution [find] returns. *)
Definition reaches {A : Type} (find : Donor.t -> async A) (b : body)
  (tr : trace) : bool :=
  strictEq (event_ b) (Str "transaction.succeeded")
  && match data b with
     | Some d =>
         match fst (find (Common.donorOf d) tr) with
         | Return _ => true
         | Throw _ => false
         end
     | None => false
     end.

End Watch.

(* ================================================================== *)
(** * Example hosts and inputs, used to run the model on concrete cases *)

Module Examples.
Import Common.

Definition quote : string := String (ascii_of_nat 34) EmptyString.

(** [JSON.stringify] on the bodies of the example requests: [{}] and
    [{ event: e }] for an event name that needs no escaping. *)
Definition stringify (b : body) : string :=
  match event_ b, data b with
  | Str e, None =>
      "{" ++ quote ++ "event" ++ quote ++ ":" ++ quote ++ e ++ quote ++ "}"
  | _, _ => "{}"
  end.

(** 2025-11-02T10:00:00.000Z. *)
Definition clock : Z := 1762077600000.

(** A host whose CiviCRM answers by [crm] and whose plan API answers by
    [plans], whatever happened before. *)
Definition hostOf (crm : call -> outcome (option Reply.t))
  (plans : value -> outcome (option Plan.t)) : world :=
  {| GIVEBUTTER_WEBHOOK_SECRET := "whsec_example";
     GIVEBUTTER_API_KEY := Str "gb_example";
     now := clock;
     JSON_stringify := stringify;
     civicrm := fun _ c => crm c;
     givebutter := fun _ planId => plans planId |}.

Definition networkError : error := AxiosError "Network Error".

(** Nothing outside answers. *)
Definition offline : world :=
  hostOf (fun _ => Rejected networkError) (fun _ => Rejected networkError).

Definition emptyRow : Row.t :=
  {| Row.id := Undefined; Row.contact_id := Undefined;
     Row.custom_820 := Undefined; Row.end_date := Undefined |}.

Definition created (id : Z) : Reply.t :=
  {| Reply.count := Some 1; Reply.id := Num id; Reply.values := Absent |}.

Definition none : Reply.t :=
  {| Reply.count := Some 0; Reply.id := Undefined; Reply.values := Array [] |}.

Definition listing (rows : list Row.t) : Reply.t :=
  {| Reply.count := Some (Z.of_nat (List.length rows));
     Reply.id := Undefined; Reply.values := Array rows |}.

(** A CiviCRM that knows no contact and no membership, and creates what it
    is asked to: contact 7, contribution 8, membership 9. *)
Definition fresh (c : call) : outcome (option Reply.t) :=
  match parameters c with
  | ContactGet _ _ => Resolved (Some none)
  | ContactCreate _ _ _ _ => Resolved (Some (created 7))
  | ContactUpdate _ _ => Resolved (Some (created 7))
  | ContributionCreate _ => Resolved (Some (created 8))
  | MembershipGet _ _ => Resolved (Some none)
  | MembershipCreate _ => Resolved (Some (created 9))
  end.

(** A CiviCRM that knows contact 7, with [stored] as its local area and a
    membership 5 ending on [endDate]. *)
Definition known (stored endDate : value) (c : call)
  : outcome (option Reply.t) :=
  match parameters c with
  | ContactGet _ _ =>
      Resolved (Some (listing [ {| Row.id := Str "7";
                                   Row.contact_id := Str "7";
                                   Row.custom_820 := stored;
                                   Row.end_date := Undefined |} ]))
  | MembershipGet _ _ =>
      Resolved (Some (listing [ {| Row.id := Str "5";
                                   Row.contact_id := Str "7";
                                   Row.custom_820 := Undefined;
                                   Row.end_date := endDate |} ]))
  | _ => fresh c
  end.

(** A CiviCRM on which only contributions can be written: contact updates
    and every membership call fail. *)
Definition contributionsOnly (c : call) : outcome (option Reply.t) :=
  match parameters c with
  | ContactUpdate _ _ | MembershipGet _ _ | MembershipCreate _ =>
      Rejected networkError
  | _ => fresh c
  end.

Definition monthlyPlan (_ : value) : outcome (option Plan.t) :=
  Resolved (Some {| Plan.frequency := Str "monthly" |}).

Definition noPlan (_ : value) : outcome (option Plan.t) :=
  Rejected networkError.

(** A donation to the main campaign carrying the local-area label
    [label]. *)
Definition donation (label : value) : Tx.t :=
  {| Tx.id := Str "txn_1";
     Tx.amount := 25;
     Tx.transacted_at := Str "2025-11-02T09:59:58.000Z";
     Tx.campaign_id := Str "195519";
     Tx.campaign_title := Str "Membership Drive";
     Tx.is_recurring := Bool true;
     Tx.plan_id := Str "plan_1";
     Tx.first_name := Str "Ada";
     Tx.last_name := Str "Donor";
     Tx.email := Str "ada@example.com";
     Tx.phone := Undefined;
     Tx.member := None;
     Tx.custom_fields :=
       Some [ {| Field.field_id := Num 64260;
                 Field.title := Str "Local Area";
                 Field.value := label |} ] |}.

Definition ada : Donor.t := donorOf (donation (Str "Colorado")).

(** A one-off donation to campaign [campaign] with the custom fields
    [fields]. *)
Definition gift (campaign : value) (fields : option (list Field.t)) : Tx.t :=
  {| Tx.id := Str "txn_2";
     Tx.amount := 10;
     Tx.transacted_at := Undefined;
     Tx.campaign_id := campaign;
     Tx.campaign_title := Undefined;
     Tx.is_recurring := Bool false;
     Tx.plan_id := Undefined;
     Tx.first_name := Str "Ada";
     Tx.last_name := Str "Donor";
     Tx.email := Str "ada@example.com";
     Tx.phone := Undefined;
     Tx.member := None;
     Tx.custom_fields := fields |}.

Definition field (id : Z) (title label : string) : Field.t :=
  {| Field.field_id := Num id; Field.title := Str title;
     Field.value := Str label |}.

Definition contact7 (stored : value) : LocalArea.contactInfo :=
  {| LocalArea.id := Str "7"; LocalArea.localArea := stored |}.

Definition delivery (header : option string) (event : value)
  (data : option Tx.t) : request :=
  {| signature := header; reqBody := {| event_ := event; data := data |} |}.

End Examples.

(* ================================================================== *)
(** * Calendar facts *)

Module DateFacts.
Import JSDate.

Lemma Day_MakeDate (d tm : Z) :
  0 <= tm < msPerDay -> Day (MakeDate d tm) = d.
Proof.
  intros H. unfold Day, MakeDate, msPerDay in *.
  rewrite Z.add_comm, Z.div_add by lia.
  rewrite Z.div_small by lia. lia.
Qed.

Lemma TimeWithinDay_range (t : Z) : 0 <= TimeWithinDay t < msPerDay.
Proof. unfold TimeWithinDay, msPerDay. apply Z.mod_pos_bound. lia. Qed.

Lemma TimeWithinDay_MakeDate (d tm : Z) :
  0 <= tm < msPerDay -> TimeWithinDay (MakeDate d tm) = tm.
Proof.
  intros H. unfold TimeWithinDay, MakeDate, msPerDay in *.
  rewrite Z.add_comm, Z.mod_add by lia. apply Z.mod_small. lia.
Qed.

(** [YearFromDay] meets the ECMAScript definition of the year of a time
    value: the year whose first day is the latest not after the day. *)
Lemma YearFromDay_spec (d : Z) :
  DayFromYear (YearFromDay d) <= d < DayFromYear (YearFromDay d + 1).
Proof.
  unfold YearFromDay, DayFromYear.
  Z.to_euclidean_division_equations. lia.
Qed.

Lemma DayFromYear_succ (y : Z) :
  DayFromYear (y + 1) = DayFromYear y + DaysInYear y.
Proof.
  unfold DayFromYear, DaysInYear, leapYear.
  destruct (y mod 4 =? 0) eqn:E4; destruct (y mod 100 =? 0) eqn:E100;
    destruct (y mod 400 =? 0) eqn:E400; cbn [andb orb negb];
    rewrite ?Z.eqb_eq, ?Z.eqb_neq in *;
    Z.to_euclidean_division_equations; lia.
Qed.

Lemma DayFromYear_mono (y y' : Z) : y <= y' -> DayFromYear y <= DayFromYear y'.
Proof.
  intros H. unfold DayFromYear. Z.to_euclidean_division_equations. lia.
Qed.

(** The year is determined by the day: no other year contains it. *)
Lemma YearFromDay_unique (d y : Z) :
  DayFromYear y <= d < DayFromYear (y + 1) -> YearFromDay d = y.
Proof.
  intros H. pose proof (YearFromDay_spec d) as S.
  destruct (Z.lt_trichotomy (YearFromDay d) y) as [L | [E | G]]; [ | exact E | ].
  - pose proof (DayFromYear_mono (YearFromDay d + 1) y ltac:(lia)). lia.
  - pose proof (DayFromYear_mono (y + 1) (YearFromDay d) ltac:(lia)). lia.
Qed.

Lemma DayWithinYear_range (t : Z) :
  0 <= DayWithinYear t < DaysInYear (YearFromTime t).
Proof.
  unfold DayWithinYear, YearFromTime.
  pose proof (YearFromDay_spec (Day t)) as S.
  rewrite DayFromYear_succ in S. lia.
Qed.

Lemma monthOfYearDay_range (leap : bool) (d : Z) :
  0 <= monthOfYearDay leap d <= 11.
Proof.
  unfold monthOfYearDay.
  repeat match goal with |- context [if ?c then _ else _] => destruct c end;
    lia.
Qed.

Lemma MonthFromTime_range (t : Z) : 0 <= MonthFromTime t <= 11.
Proof. apply monthOfYearDay_range. Qed.

(** Rebuilding a time value's day from its own year, month and day of the
    month, the day of the month moved by [k], moves the day by [k]. *)
Lemma MakeDay_shift (t k : Z) :
  MakeDay (YearFromTime t) (MonthFromTime t) (DateFromTime t + k) = Day t + k.
Proof.
  pose proof (MonthFromTime_range t) as M.
  unfold MakeDay.
  rewrite Z.div_small, Z.mod_small by lia.
  rewrite Z.add_0_r.
  unfold DateFromTime, InLeapYear, DayWithinYear. lia.
Qed.

Lemma Day_setDate (t k : Z) : Day (setDate t (getDate t + k)) = Day t + k.
Proof.
  unfold setDate, getDate.
  rewrite Day_MakeDate by apply TimeWithinDay_range.
  apply MakeDay_shift.
Qed.

Lemma TimeWithinDay_setDate (t date : Z) :
  TimeWithinDay (setDate t date) = TimeWithinDay t.
Proof.
  unfold setDate. apply TimeWithinDay_MakeDate, TimeWithinDay_range.
Qed.

(** The day of the month lies within the month. *)
Lemma DateFromTime_range (t : Z) : 1 <= DateFromTime t <= 31.
Proof.
  unfold DateFromTime, MonthFromTime.
  pose proof (DayWithinYear_range t) as R.
  unfold InLeapYear, DaysInYear in *.
  destruct (leapYear (YearFromTime t)); unfold monthOfYearDay;
    repeat match goal with
           | |- context [if ?a <? ?b then _ else _] =>
               destruct (Z.ltb_spec a b)
           end; cbn in *; lia.
Qed.

Lemma month_cases (m : Z) :
  0 <= m <= 11 ->
  m = 0 \/ m = 1 \/ m = 2 \/ m = 3 \/ m = 4 \/ m = 5 \/ m = 6 \/ m = 7
  \/ m = 8 \/ m = 9 \/ m = 10 \/ m = 11.
Proof. lia. Qed.

(** A calendar date that exists is what a time value built from it reads
    back as: [MakeDay] and the three [...FromTime] functions are inverse
    to each other on the dates of the calendar. *)
Lemma civil_roundtrip (y m d tm : Z) :
  0 <= m <= 11 ->
  1 <= d <= DaysInMonth (leapYear y) m ->
  0 <= tm < msPerDay ->
  YearFromTime (MakeDate (MakeDay y m d) tm) = y
  /\ MonthFromTime (MakeDate (MakeDay y m d) tm) = m
  /\ DateFromTime (MakeDate (MakeDay y m d) tm) = d.
Proof.
  intros Hm Hd Htm.
  unfold DateFromTime, MonthFromTime, InLeapYear, DayWithinYear, YearFromTime.
  rewrite Day_MakeDate by assumption.
  unfold MakeDay. rewrite Z.div_small, Z.mod_small, Z.add_0_r by lia.
  assert (YearFromDay (DayFromYear y + monthStart (leapYear y) m + d - 1) = y)
    as ->.
  { apply YearFromDay_unique. rewrite DayFromYear_succ. unfold DaysInYear.
    destruct (month_cases m Hm)
      as [-> | [-> | [-> | [-> | [-> | [-> | [-> | [-> | [-> | [-> | [-> | ->]]]]]]]]]]];
      destruct (leapYear y); cbn in *; lia. }
  destruct (month_cases m Hm)
    as [-> | [-> | [-> | [-> | [-> | [-> | [-> | [-> | [-> | [-> | [-> | ->]]]]]]]]]]];
    destruct (leapYear y); cbn in Hd |- *; unfold monthOfYearDay; cbn;
    repeat match goal with
           | |- context [if ?a <? ?b then _ else _] =>
               destruct (Z.ltb_spec a b); try lia
           end; cbn; repeat split; lia.
Qed.

End DateFacts.

(* ================================================================== *)
(** * How traces grow *)

Module Traces.
Import Common Observe.

Section Adds.
Variable P : event -> bool.

Lemma adds_ret {A} (a : A) : adds P (ret a).
Proof. intros tr. exists []. cbn. now rewrite app_nil_r. Qed.

Lemma adds_throw {A} (e : error) : adds P (@throw A e).
Proof. intros tr. exists []. cbn. now rewrite app_nil_r. Qed.

Lemma adds_emit (e : event) : P e = true -> adds P (emit e).
Proof. intros H tr. exists [e]. cbn. now rewrite H. Qed.

Lemma adds_deref {A} (what property : string) (o : option A) :
  adds P (deref what property o).
Proof. destruct o; [ apply adds_ret | apply adds_throw ]. Qed.

Lemma adds_bind {A B} (m : async A) (k : A -> async B) :
  adds P m -> (forall a, adds P (k a)) -> adds P (bind m k).
Proof.
  intros Hm Hk tr. unfold bind.
  destruct (Hm tr) as (more & Hmore & HP).
  destruct (m tr) as [[a | e] tr']; cbn in Hmore; subst tr'.
  - destruct (Hk a (tr ++ more)%list) as (more' & -> & HP').
    exists (more ++ more')%list.
    now rewrite app_assoc, forallb_app, HP, HP'.
  - exists more. auto.
Qed.

Lemma adds_tryCatch {A} (m : async A) (h : error -> async A) :
  adds P m -> (forall e, adds P (h e)) -> adds P (tryCatch m h).
Proof.
  intros Hm Hh tr. unfold tryCatch.
  destruct (Hm tr) as (more & Hmore & HP).
  destruct (m tr) as [[a | e] tr']; cbn in Hmore; subst tr'.
  - exists more. auto.
  - destruct (Hh e (tr ++ more)%list) as (more' & -> & HP').
    exists (more ++ more')%list.
    now rewrite app_assoc, forallb_app, HP, HP'.
Qed.

Lemma adds_civiCRMApi (w : world) (ent act : string) (p : params) :
  P (Request {| entity := ent; action := act; parameters := p |}) = true ->
  (forall line e, P (ConsoleError line e) = true) ->
  adds P (civiCRMApi w ent act p).
Proof.
  intros Hr Hc tr. unfold civiCRMApi.
  destruct (civicrm w tr _); eexists; (split; [ reflexivity | ]); cbn;
    now rewrite Hr, ?Hc.
Qed.

Lemma adds_if {A} (c : bool) (m m' : async A) :
  adds P m -> adds P m' -> adds P (if c then m else m').
Proof. destruct c; auto. Qed.

End Adds.

(** Closes [adds] and [grows] goals on computations built from the
    combinators. *)
Ltac grow :=
  unfold grows;
  repeat first
    [ progress intros
    | progress cbv zeta
    | apply adds_bind
    | apply adds_tryCatch
    | apply adds_if
    | apply adds_ret
    | apply adds_throw
    | apply adds_emit; reflexivity
    | apply adds_deref
    | apply adds_civiCRMApi; [ reflexivity | reflexivity ]
    | match goal with
      | |- adds _ (match ?x with _ => _ end) => destruct x
      end ].

Lemma grows_prefix {A} (m : async A) (tr : trace) :
  grows m -> exists more, snd (m tr) = (tr ++ more)%list.
Proof. intros H. destruct (H tr) as (more & Hm & _). eauto. Qed.

(** The trace of [await x <- civiCRMApi ...; k x] opens with the request. *)
Lemma opens_with_request {A} (w : world) (ent act : string) (p : params)
  (k : option Reply.t -> async A) (tr : trace) :
  (forall data, grows (k data)) ->
  exists rest,
    snd (bind (civiCRMApi w ent act p) k tr)
    = (tr ++ Request {| entity := ent; action := act; parameters := p |}
          :: rest)%list.
Proof.
  intros Hk. unfold bind, civiCRMApi.
  destruct (civicrm w tr _) as [data | e].
  - destruct (grows_prefix _ (tr ++ [Request {| entity := ent; action := act;
                                                parameters := p |}])%list
                (Hk data))
      as [more ->].
    exists more. now rewrite <- app_assoc.
  - eexists. cbn. reflexivity.
Qed.

(** A handler that catches does not hide what the body had sent. *)
Lemma tryCatch_keeps_prefix {A} (m : async A) (h : error -> async A)
  (tr : trace) (pre : list event) :
  (forall e, grows (h e)) ->
  (exists rest, snd (m tr) = (tr ++ pre ++ rest)%list) ->
  exists rest, snd (tryCatch m h tr) = (tr ++ pre ++ rest)%list.
Proof.
  intros Hh [rest Hm]. unfold tryCatch.
  destruct (m tr) as [[a | e] tr']; cbn in Hm; subst tr'.
  - exists rest. reflexivity.
  - destruct (grows_prefix _ (tr ++ pre ++ rest)%list (Hh e)) as [more ->].
    exists (rest ++ more)%list. now rewrite <- !app_assoc.
Qed.

End Traces.

(* ================================================================== *)
(** * The signature gate *)

Module SignatureGate.
Import Common.

Lemma verify_cases (w : world) (req : request) (tr : trace) :
  verifyGivebutterSignature w req tr =
  match signature req with
  | None => (Return Next, tr)
  | Some s =>
      if (s =? "")%string then (Return Next, tr)
      else if (s =? Crypto.hmacSha256Hex (GIVEBUTTER_WEBHOOK_SECRET w)
                      (JSON_stringify w (reqBody req)))%string
           then (Return Next, tr)
           else (Return (Halt unauthorized),
                 (tr ++ [ConsoleError "Invalid webhook signature" None])%list)
  end.
Proof.
  unfold verifyGivebutterSignature.
  destruct (signature req) as [s |]; cbn; [ | reflexivity ].
  destruct (s =? "")%string; cbn; [ reflexivity | ].
  destruct (s =? _)%string; reflexivity.
Qed.




End SignatureGate.

(* ================================================================== *)
(** * Membership type, duration and window *)

Module MembershipFacts.
Import Common LocalArea Membership JSDate DateFacts Window.

Lemma strictEq_Str (v : value) (s : string) :
  strictEq v (Str s) = true <-> v = Str s.
Proof.
  destruct v; cbn; try (split; [discriminate | discriminate]).
  rewrite String.eqb_eq. split; congruence.
Qed.

Lemma strictEq_Str_false (v : value) (s : string) :
  strictEq v (Str s) = false <-> v <> Str s.
Proof.
  rewrite <- strictEq_Str. destruct (strictEq v (Str s)); split; congruence.
Qed.

(** The calendar parts of a time value depend on its day only. *)
Lemma parts_of_day (t t' : Z) :
  Day t = Day t' ->
  YearFromTime t = YearFromTime t'
  /\ MonthFromTime t = MonthFromTime t'
  /\ DateFromTime t = DateFromTime t'.
Proof.
  intros E.
  unfold DateFromTime, MonthFromTime, InLeapYear, DayWithinYear, YearFromTime.
  rewrite E. auto.
Qed.

Lemma toISODate_of_day (t : Z) : toISODate t = dateOfDay (Day t).
Proof.
  unfold dateOfDay, toISODate.
  destruct (parts_of_day t (MakeDate (Day t) 0)) as (-> & -> & ->);
    [ | reflexivity ].
  rewrite Day_MakeDate; [ reflexivity | unfold msPerDay; lia ].
Qed.

(** Moving the year or the month of a time value forward lands on the day
    the calendar addition names. *)
Lemma Day_endOf (d : duration) (startDate : Z) :
  (set (years d) = true \/ (set (years d) = false /\ years d = None)) ->
  (set (years d) = true -> months d = None) ->
  Day (endOf d startDate) = plusDuration d (Day startDate).
Proof.
  intros Hy Hm. unfold endOf, plusDuration.
  destruct (parts_of_day startDate (MakeDate (Day startDate) 0))
    as (EY & EM & ED).
  { rewrite Day_MakeDate; [ reflexivity | unfold msPerDay; lia ]. }
  rewrite <- EY, <- EM, <- ED.
  destruct (set (years d)) eqn:Sy.
  - rewrite (Hm eq_refl). cbn [numberOf]. rewrite Z.add_0_r.
    unfold setFullYear, getFullYear.
    apply Day_MakeDate, TimeWithinDay_range.
  - destruct Hy as [Hy | [_ Hy]]; [ discriminate | ].
    rewrite Hy. cbn [numberOf]. rewrite Z.add_0_r.
    destruct (set (months d)) eqn:Sm.
    + unfold setMonth, getMonth. apply Day_MakeDate, TimeWithinDay_range.
    + assert (numberOf (months d) = 0) as ->.
      { destruct (months d) as [z |]; cbn in *; [ | reflexivity ].
        destruct (Z.eqb_spec z 0); [ assumption | discriminate ]. }
      rewrite Z.add_0_r. symmetry. rewrite <- (Z.add_0_r (DateFromTime _)).
      rewrite MakeDay_shift. lia.
Qed.

(** Every duration the decision table yields is a whole number of years
    or of months. *)
Lemma policy_duration (transaction : Tx.t) (frequency : value) :
  let d := snd (membershipPolicy transaction frequency) in
  d = oneYear \/ d = monthsOf 1 \/ d = monthsOf 3.
Proof.
  unfold membershipPolicy.
  repeat match goal with |- context [if ?c then _ else _] => destruct c end;
    cbn; auto.
Qed.

Lemma Day_endOf_policy (transaction : Tx.t) (frequency : value) (startDate : Z) :
  Day (endOf (snd (membershipPolicy transaction frequency)) startDate)
  = plusDuration (snd (membershipPolicy transaction frequency)) (Day startDate).
Proof.
  pose proof (policy_duration transaction frequency) as H. cbv zeta in H.
  apply Day_endOf; destruct H as [-> | [-> | ->]]; cbn;
    auto; discriminate.
Qed.

Lemma Day_renewalStart (today : Z) (existingEndDate : option Z) :
  Day (renewalStart today existingEndDate) = startDay today existingEndDate.
Proof.
  unfold renewalStart, startDay, after.
  destruct existingEndDate as [t |]; [ | reflexivity ].
  destruct (today <? t); [ | reflexivity ].
  apply Day_setDate.
Qed.

Lemma first_not_absent (vs : values) (row : Row.t) :
  first vs = Some row -> vs <> Absent.
Proof. intros H ->. discriminate. Qed.

(** What an upsert sends when the lookup finds a membership: the lookup,
    then a write that carries the found membership's id and the renewed
    window, whatever becomes of the write. *)
Lemma upsert_renews (w : world) (contactId contributionId : value)
  (transaction : Tx.t) (frequency : value) (tr : trace)
  (found : Reply.t) (existing : Row.t) :
  civicrm w tr (lookup contactId (fst (membershipPolicy transaction frequency)))
    = Resolved (Some found) ->
  positive (Reply.count found) = true ->
  first (Reply.values found) = Some existing ->
  exists rest,
    snd (createOrRenewMembership w contactId contributionId transaction
           frequency tr)
    = (tr ++ Request (lookup contactId
                        (fst (membershipPolicy transaction frequency)))
          :: Request (write (renewal (now w) contactId contributionId
                               transaction
                               (fst (membershipPolicy transaction frequency))
                               (snd (membershipPolicy transaction frequency))
                               existing))
          :: rest)%list.
Proof.
  intros Hget Hcount Hfirst.
  unfold createOrRenewMembership.
  destruct (membershipPolicy transaction frequency) as [typeId d].
  cbn [fst snd] in *.
  unfold tryCatch, upsert, bind, civiCRMApi. fold (lookup contactId typeId).
  rewrite Hget. cbn [deref ret]. rewrite Hcount.
  pose proof (first_not_absent _ _ Hfirst) as Hvs.
  destruct (Reply.values found) as [| rows | rows]; [ congruence | | ];
    rewrite Hfirst; cbn [deref ret];
    match goal with
    | |- context [civicrm w ?t ?c] => destruct (civicrm w t c) as [[r |] | e]
    end;
    cbn; rewrite <- ?app_assoc; cbn; eexists; reflexivity.
Qed.




(** The window on three concrete renewals, with the clock at
    2025-11-02T10:00Z: a membership that ended yesterday, one that ends in
    sixty days, and a window opening on the 31st, which a month later
    carries over into March. *)
Example renewal_after_expiry :
  let m := renewal Examples.clock (Str "7") (Num 8)
             (Examples.donation (Str "Colorado")) 10 (monthsOf 1)
             {| Row.id := Str "5"; Row.contact_id := Str "7";
                Row.custom_820 := Undefined;
                Row.end_date := Str "2025-11-01" |} in
  (MembershipData.start_date m, MembershipData.end_date m)
  = ("2025-11-02", "2025-12-02").
Proof. vm_compute. reflexivity. Qed.

Example renewal_before_expiry :
  let m := renewal Examples.clock (Str "7") (Num 8)
             (Examples.donation (Str "Colorado")) 10 (monthsOf 1)
             {| Row.id := Str "5"; Row.contact_id := Str "7";
                Row.custom_820 := Undefined;
                Row.end_date := Str "2026-01-01" |} in
  (MembershipData.start_date m, MembershipData.end_date m)
  = ("2026-01-02", "2026-02-02").
Proof. vm_compute. reflexivity. Qed.

Example renewal_month_end :
  let m := renewal Examples.clock (Str "7") (Num 8)
             (Examples.donation (Str "Colorado")) 10 (monthsOf 1)
             {| Row.id := Str "5"; Row.contact_id := Str "7";
                Row.custom_820 := Undefined;
                Row.end_date := Str "2026-01-30" |} in
  (MembershipData.start_date m, MembershipData.end_date m)
  = ("2026-01-31", "2026-03-03").
Proof. vm_compute. reflexivity. Qed.

Lemma grows_upsert (w : world) (contactId contributionId : value)
  (transaction : Tx.t) (typeId : Z) (d : duration) :
  Observe.grows (upsert w contactId contributionId transaction typeId d).
Proof. unfold upsert. Traces.grow. Qed.

(** An upsert opens with the lookup of a membership of the type the
    decision table names. *)
Lemma upsert_looks_up_policy_type (w : world) (contactId contributionId : value)
  (transaction : Tx.t) (frequency : value) (tr : trace) :
  exists rest,
    snd (createOrRenewMembership w contactId contributionId transaction
           frequency tr)
    = (tr ++ Request (lookup contactId
                        (fst (membershipPolicy transaction frequency)))
          :: rest)%list.
Proof.
  unfold createOrRenewMembership.
  destruct (membershipPolicy transaction frequency) as [typeId d].
  cbn [fst].
  apply (Traces.tryCatch_keeps_prefix _ _ tr [Request (lookup contactId typeId)]).
  - Traces.grow.
  - unfold upsert. apply Traces.opens_with_request. Traces.grow.
Qed.

(** The frequency handed to the upsert stays [null] when the plan id is
    absent, no API key is configured, the plan request fails, or the plan
    carries no frequency. *)
Lemma frequency_unresolved (w : world) (transaction : Tx.t) (tr : trace) :
  truthy (Tx.plan_id transaction) = false
  \/ truthy (GIVEBUTTER_API_KEY w) = false
  \/ (exists e, givebutter w tr (Tx.plan_id transaction) = Rejected e)
  \/ givebutter w tr (Tx.plan_id transaction) = Resolved None
  \/ (exists plan,
        givebutter w tr (Tx.plan_id transaction) = Resolved (Some plan)
        /\ truthy (Plan.frequency plan) = false) ->
  fst (frequencyOf w transaction tr) = Return Null.
Proof.
  unfold frequencyOf, getGivebutterPlan, bind.
  intros [H | [H | [[e H] | [H | (plan & H & Hf)]]]];
    destruct (truthy (Tx.plan_id transaction)); try reflexivity;
    try discriminate;
    destruct (truthy (GIVEBUTTER_API_KEY w)); try reflexivity;
    try discriminate; cbn [negb orb]; rewrite H; cbn; try reflexivity.
  rewrite Hf. reflexivity.
Qed.

Lemma frequency_resolved (w : world) (transaction : Tx.t) (tr : trace)
  (plan : Plan.t) :
  truthy (Tx.plan_id transaction) = true ->
  truthy (GIVEBUTTER_API_KEY w) = true ->
  givebutter w tr (Tx.plan_id transaction) = Resolved (Some plan) ->
  truthy (Plan.frequency plan) = true ->
  fst (frequencyOf w transaction tr) = Return (Plan.frequency plan).
Proof.
  intros Hp Hk Hg Hf. unfold frequencyOf, getGivebutterPlan, bind.
  rewrite Hp, Hk. cbn [negb orb]. rewrite Hg. cbn. rewrite Hf. reflexivity.
Qed.



End MembershipFacts.

(* ================================================================== *)
(** * Contact resolution *)

Module ContactFacts.
Import Common Observe Resolution.

Lemma creations_app (tr tr' : trace) :
  creations (tr ++ tr')%list = (creations tr ++ creations tr')%list.
Proof. apply filter_app. Qed.

Lemma no_growth (l more : list event) : l = (l ++ more)%list -> more = [].
Proof.
  intros H. apply (f_equal (@List.length event)) in H.
  rewrite length_app in H. destruct more; [ reflexivity | cbn in H; lia ].
Qed.

(** The whole behaviour of the baseline resolution, by what the lookup
    returns. *)
Lemma baseline_resolution (w : world) (data : Donor.t) (tr : trace) :
  match civicrm w tr (lookup data None) with
  | Resolved (Some found) =>
      if reportsBaseline found then
        snd (Baseline.findOrCreateContact w data tr)
        = (tr ++ [Request (lookup data None)])%list
        /\ (forall contact,
              first (Reply.values found) = Some contact ->
              fst (Baseline.findOrCreateContact w data tr)
              = Return (Row.id contact))
      else
        creations (snd (Baseline.findOrCreateContact w data tr))
        = (creations tr ++ [Request (create data)])%list
        /\ (forall made,
              civicrm w (tr ++ [Request (lookup data None)])%list (create data)
              = Resolved (Some made) ->
              fst (Baseline.findOrCreateContact w data tr)
              = Return (Reply.id made))
  | Resolved None =>
      snd (Baseline.findOrCreateContact w data tr)
      = (tr ++ [Request (lookup data None)])%list
  | Rejected e =>
      fst (Baseline.findOrCreateContact w data tr) = Throw e
      /\ creations (snd (Baseline.findOrCreateContact w data tr))
         = creations tr
  end.
Proof.
  destruct (Baseline.findOrCreateContact w data tr) as [r t] eqn:E.
  unfold Baseline.findOrCreateContact, bind, civiCRMApi in E.
  fold (lookup data None) in E. fold (create data) in E.
  unfold reportsBaseline.
  destruct (civicrm w tr (lookup data None)) as [[found |] | e];
    cbn [deref ret throw fst snd] in *.
  - destruct (positive (Reply.count found)).
    + split.
      * destruct (Reply.values found) as [| rows | rows];
          [ | destruct (first (Array rows)) | destruct (first (Object rows)) ];
          injection E as <- <-; reflexivity.
      * intros contact Hfirst.
        destruct (Reply.values found) as [| rows | rows];
          [ discriminate | | ]; rewrite Hfirst in E;
          injection E as <- <-; reflexivity.
    + destruct (civicrm w _ (create data)) as [[made |] | e];
        injection E as <- <-; rewrite !creations_app; cbn;
        rewrite ?app_nil_r;
        (split; [ reflexivity | intros made' H; congruence ]).
  - congruence.
  - injection E as <- <-. rewrite creations_app. cbn.
    rewrite app_nil_r. auto.
Qed.

(** The same for the resolution of the custom-field variant. *)
Lemma later_resolution (w : world) (data : Donor.t) (tr : trace) :
  match civicrm w tr (lookup data None) with
  | Resolved (Some found) =>
      match reportsLater found with
      | Some contact =>
          CustomField.findOrCreateContact w data tr
          = (Return (or (Row.id contact) (Row.contact_id contact)),
             (tr ++ [Request (lookup data None)])%list)
      | None =>
          creations (snd (CustomField.findOrCreateContact w data tr))
          = (creations tr ++ [Request (create data)])%list
          /\ (forall made,
                civicrm w (tr ++ [Request (lookup data None)])%list
                  (create data)
                = Resolved (Some made) ->
                fst (CustomField.findOrCreateContact w data tr)
                = Return (idOf made))
      end
  | Resolved None =>
      snd (CustomField.findOrCreateContact w data tr)
      = (tr ++ [Request (lookup data None)])%list
  | Rejected e =>
      fst (CustomField.findOrCreateContact w data tr) = Throw e
      /\ creations (snd (CustomField.findOrCreateContact w data tr))
         = creations tr
  end.
Proof.
  destruct (CustomField.findOrCreateContact w data tr) as [r t] eqn:E.
  unfold CustomField.findOrCreateContact, bind, civiCRMApi in E.
  fold (lookup data None) in E. fold (create data) in E.
  unfold reportsLater.
  destruct (civicrm w tr (lookup data None)) as [[found |] | e];
    cbn [deref ret throw fst snd] in *.
  - assert (creations t = (creations tr ++ [Request (create data)])%list
            /\ (forall made,
                  civicrm w (tr ++ [Request (lookup data None)])%list
                    (create data) = Resolved (Some made) ->
                  r = Return (idOf made))
            \/ exists contact,
                 positive (Reply.count found) = true
                 /\ (exists rows, Reply.values found = Array (contact :: rows))
                 /\ (r, t) = (Return (or (Row.id contact) (Row.contact_id contact)),
                              (tr ++ [Request (lookup data None)])%list))
      as [Hcreate | (contact & Hc & [rows Hv] & Hfound)].
    { destruct (positive (Reply.count found));
        [ destruct (Reply.values found) as [| [| contact rows] | rows] | ];
        try (right; exists contact; repeat split; eauto; congruence);
        left;
        destruct (civicrm w _ (create data)) as [[made |] | e];
        injection E as <- <-; rewrite !creations_app; cbn;
        rewrite ?app_nil_r;
        (split; [ reflexivity | intros made' H; congruence ]). }
    + destruct (positive (Reply.count found));
        [ destruct (Reply.values found) as [| [| contact rows] | rows] | ];
        try exact Hcreate.
      injection E as <- <-. reflexivity.
    + rewrite Hc, Hv. exact Hfound.
  - congruence.
  - injection E as <- <-. rewrite creations_app. cbn.
    rewrite app_nil_r. auto.
Qed.

Lemma creations_after_lookup (data : Donor.t) (fields : option string)
  (tr : trace) :
  creations (tr ++ [Request (lookup data fields)])%list = creations tr.
Proof. rewrite creations_app. cbn. apply app_nil_r. Qed.

Lemma creation_shows (tr : trace) (e : event) :
  (creations tr ++ [e])%list <> creations tr.
Proof.
  intros H. symmetry in H. apply no_growth in H. discriminate.
Qed.

(** The id a reply carries, in each of the three shapes CiviCRM uses: a
    top-level [id], a [values] list whose first row has one, or a [values]
    object keyed by it. *)
Lemma idOf_shapes (r : Reply.t) :
  (truthy (Reply.id r) = true -> idOf r = Reply.id r)
  /\ (forall row rows,
        truthy (Reply.id r) = false ->
        Reply.values r = Array (row :: rows) ->
        truthy (Row.id row) = true ->
        idOf r = Row.id row)
  /\ (forall key row rows,
        truthy (Reply.id r) = false ->
        Reply.values r = Object ((key, row) :: rows) ->
        first (Reply.values r) = None ->
        idOf r = Str key).
Proof.
  unfold idOf, or. repeat split.
  - intros H. rewrite H. cbv iota. rewrite H. reflexivity.
  - intros row rows H Hv Hrow. rewrite H, Hv. cbn [first hd_error].
    cbv iota. rewrite Hrow. reflexivity.
  - intros key row rows H Hv Hfirst. rewrite Hv in Hfirst |- *.
    rewrite H. cbv iota. rewrite Hfirst. reflexivity.
Qed.



(** A donor CiviCRM knows: nothing is created. *)
Example known_contact_is_reused :
  CustomField.findOrCreateContact
    (Examples.hostOf (Examples.known Undefined Undefined) Examples.noPlan)
    Examples.ada []
  = (Return (Str "7"), [Request (lookup Examples.ada None)]).
Proof. reflexivity. Qed.

End ContactFacts.

(* ================================================================== *)
(** * The category policy and the stored local area *)

Module CategoryFacts.
Import Common Observe LocalArea.

(** The write-back always returns; a failed request leaves two console
    lines, the one of [civiCRMApi] and the one of the [catch]. *)
Lemma update_contained (w : world) (contactId localArea : value) (tr : trace) :
  updateContactLocalArea w contactId localArea tr
  = (Return tt,
     (tr ++ Request (writeBack contactId localArea)
         :: match civicrm w tr (writeBack contactId localArea) with
            | Resolved _ => []
            | Rejected e =>
                [ConsoleError "CiviCRM API Error (Contact.create):" (Some e);
                 ConsoleError "Failed to update contact Local Area:" (Some e)]
            end)%list).
Proof.
  unfold updateContactLocalArea, tryCatch, bind, civiCRMApi, emit.
  fold (writeBack contactId localArea).
  destruct (civicrm w tr (writeBack contactId localArea)); cbn;
    rewrite <- ?app_assoc; reflexivity.
Qed.

(** The policy never throws, yields [financialTypeId], and sends at most
    the write-back. *)
Lemma resolve_cases (w : world) (contactInfo : contactInfo)
  (transaction : Tx.t) (tr : trace) :
  resolveFinancialType w contactInfo transaction tr
  = (Return (financialTypeId contactInfo transaction),
     if writesBack contactInfo transaction
     then (tr ++ Request (writeBack (id contactInfo)
                            (localAreaValue contactInfo transaction))
              :: updateLog w contactInfo transaction tr)%list
     else tr).
Proof.
  unfold resolveFinancialType, financialTypeId, writesBack, updateLog.
  destruct (strictEq (campaignMapping transaction) (Str "use_custom_field")).
  - cbn [andb]. unfold bind.
    destruct (shouldUpdateContact contactInfo transaction
              && truthy (localAreaValue contactInfo transaction)) eqn:U.
    + rewrite update_contained.
      apply andb_prop in U as [_ ->]. reflexivity.
    + cbn. destruct (truthy (localAreaValue contactInfo transaction));
        reflexivity.
  - cbn [andb].
    destruct (truthy (campaignMapping transaction)); reflexivity.
Qed.

Lemma strictEq_eq (a b : value) : strictEq a b = true <-> a = b.
Proof.
  destruct a, b; cbn; try (split; [ discriminate | discriminate ]);
    try tauto.
  - destruct b, b0; cbn; split; congruence.
  - rewrite Z.eqb_eq. split; congruence.
  - rewrite String.eqb_eq. split; congruence.
  - rewrite String.eqb_eq. split; congruence.
Qed.

Lemma strictEq_neq (a b : value) : strictEq a b = false <-> a <> b.
Proof.
  rewrite <- strictEq_eq. destruct (strictEq a b); split; congruence.
Qed.

(** A label that names neither an own nor an inherited property of the
    table reads as [undefined], and the default applies; a label the table
    lists yields its entry, every entry being a non-zero number. *)
Lemma unlisted_label (label : value) :
  own localAreaMapping (toString label) = None ->
  inherited (toString label) = false ->
  or (get localAreaMapping label) (Num 49) = Num 49.
Proof. unfold get. intros -> ->. reflexivity. Qed.

Lemma colorado : or (get localAreaMapping (Str "Colorado")) (Num 49) = Num 20.
Proof. reflexivity. Qed.

(** What holds of the claim C1, in the custom-field variant and under the
    custom-field policy of the two last variants: the label "Colorado"
    gives category 20, and an absent label, or one that names no property
    of the table at all, gives the default 49. *)
Lemma labelled_category (w : world) (contactId : value)
  (contactInfo : contactInfo) (transaction : Tx.t) (tr : trace) :
  (CustomField.localAreaOf transaction = Some (Str "Colorado") ->
   Contribution.financial_type_id
     (CustomField.contributionData w contactId transaction) = Num 20)
  /\ (CustomField.localAreaOf transaction = None ->
      Contribution.financial_type_id
        (CustomField.contributionData w contactId transaction) = Num 49)
  /\ (forall label,
        CustomField.localAreaOf transaction = Some label ->
        own localAreaMapping (toString label) = None ->
        inherited (toString label) = false ->
        Contribution.financial_type_id
          (CustomField.contributionData w contactId transaction) = Num 49)
  /\ (campaignMapping transaction = Str "use_custom_field" ->
      (localAreaValue contactInfo transaction = Str "Colorado" ->
       fst (resolveFinancialType w contactInfo transaction tr)
       = Return (Num 20))
      /\ (truthy (localAreaValue contactInfo transaction) = false ->
          fst (resolveFinancialType w contactInfo transaction tr)
          = Return (Num 49))
      /\ (own localAreaMapping
            (toString (localAreaValue contactInfo transaction)) = None ->
          inherited (toString (localAreaValue contactInfo transaction))
          = false ->
          fst (resolveFinancialType w contactInfo transaction tr)
          = Return (Num 49))).
Proof.
  cbn [CustomField.contributionData Contribution.financial_type_id].
  unfold CustomField.financialTypeId.
  repeat split.
  - intros ->. reflexivity.
  - intros ->. reflexivity.
  - intros label -> Hown Hinh. now apply unlisted_label.
  - intros Hv. rewrite resolve_cases. cbn [fst]. unfold financialTypeId.
    rewrite H, Hv. reflexivity.
  - intros Hv. rewrite resolve_cases. cbn [fst]. unfold financialTypeId.
    rewrite H, Hv. reflexivity.
  - intros Hown Hinh. rewrite resolve_cases. cbn [fst].
    unfold financialTypeId. rewrite H.
    change (strictEq (Str "use_custom_field") (Str "use_custom_field"))
      with true. cbv iota zeta.
    destruct (truthy (localAreaValue contactInfo transaction));
      [ f_equal; now apply unlisted_label | reflexivity ].
Qed.

(** C1 fails on the code at the label "constructor".  The label is not a
    key of the table, yet reading it from the table literal finds
    [Object.prototype.constructor], a truthy value, so that the default 49
    is not taken: the contribution's [financial_type_id] is that function,
    in the custom-field variant and under the custom-field policy of the
    two last variants alike. *)
Theorem inherited_label_escapes_default (w : world) (contactId : value)
  (tr : trace) :
  own localAreaMapping "constructor" = None
  /\ CustomField.localAreaOf (Examples.donation (Str "constructor"))
     = Some (Str "constructor")
  /\ Contribution.financial_type_id
       (CustomField.contributionData w contactId
          (Examples.donation (Str "constructor")))
     = Inherited "constructor"
  /\ fst (resolveFinancialType w (Examples.contact7 Null)
            (Examples.donation (Str "constructor")) tr)
     = Return (Inherited "constructor").
Proof.
  repeat split. rewrite resolve_cases. reflexivity.
Qed.

(** The test endpoint's own donation, labelled "Colorado": category 20. *)
Lemma labelled_category_witness :
  Contribution.financial_type_id
    (CustomField.contributionData Examples.offline (Str "7")
       (Examples.donation (Str "Colorado")))
  = Num 20.
Proof.
  exact (proj1 (labelled_category Examples.offline (Str "7")
                  (Examples.contact7 Null)
                  (Examples.donation (Str "Colorado")) [])
           eq_refl).
Defined.

(** A label the table does not list and [Object.prototype] does not have:
    the default. *)
Example unknown_label_defaults :
  Contribution.financial_type_id
    (CustomField.contributionData Examples.offline (Str "7")
       (Examples.donation (Str "Atlantis")))
  = Num 49.
Proof. reflexivity. Qed.

End CategoryFacts.

(* ================================================================== *)
(** * Creating the contribution *)

Module ContributionFacts.
Import Common Observe LocalArea CategoryFacts.

(** [createContribution] of the campaign variant, by what CiviCRM answers
    to the contribution request. *)
Lemma campaign_cases (w : world) (contactInfo : contactInfo)
  (transaction : Tx.t) (tr : trace) :
  Campaign.createContribution w contactInfo transaction tr
  = match civicrm w (snd (resolveFinancialType w contactInfo transaction tr))
            (submit (contributionData w contactInfo transaction
                       (financialTypeId contactInfo transaction))) with
    | Resolved (Some made) =>
        (Return made,
         (snd (resolveFinancialType w contactInfo transaction tr)
          ++ [Request (submit (contributionData w contactInfo transaction
                                 (financialTypeId contactInfo transaction)))])%list)
    | Resolved None =>
        (Throw (TypeError "Cannot read properties of null (reading 'id')"),
         (snd (resolveFinancialType w contactInfo transaction tr)
          ++ [Request (submit (contributionData w contactInfo transaction
                                 (financialTypeId contactInfo transaction)))])%list)
    | Rejected e =>
        (Throw e,
         (snd (resolveFinancialType w contactInfo transaction tr)
          ++ [Request (submit (contributionData w contactInfo transaction
                                 (financialTypeId contactInfo transaction)));
              ConsoleError "CiviCRM API Error (Contribution.create):"
                (Some e)])%list)
    end.
Proof.
  unfold Campaign.createContribution, bind at 1.
  rewrite resolve_cases. cbn [snd].
  unfold bind, civiCRMApi, submit.
  match goal with
  | |- context [civicrm w ?t ?c] => destruct (civicrm w t c) as [[made |] | e]
  end; reflexivity.
Qed.

(** The plan lookup and the membership upsert always return. *)
Lemma frequencyOf_returns (w : world) (transaction : Tx.t) (tr : trace) :
  exists frequency tr', Membership.frequencyOf w transaction tr
                        = (Return frequency, tr').
Proof.
  unfold Membership.frequencyOf, Membership.getGivebutterPlan, bind.
  destruct (truthy (Tx.plan_id transaction)); [ | eexists; eexists; reflexivity ].
  destruct (negb true || negb (truthy (GIVEBUTTER_API_KEY w)));
    [ eexists; eexists; reflexivity | ].
  destruct (givebutter w tr (Tx.plan_id transaction)) as [[plan |] | e]; cbn;
    try (eexists; eexists; reflexivity).
  destruct (truthy (Plan.frequency plan)); eexists; eexists; reflexivity.
Qed.

Lemma membership_contained (w : world) (contactId contributionId : value)
  (transaction : Tx.t) (frequency : value) (tr : trace) :
  Membership.createOrRenewMembership w contactId contributionId transaction
    frequency tr
  = match Membership.upsert w contactId contributionId transaction
            (fst (Membership.membershipPolicy transaction frequency))
            (snd (Membership.membershipPolicy transaction frequency)) tr with
    | (Return membershipId, tr') => (Return membershipId, tr')
    | (Throw e, tr') =>
        (Return Null,
         (tr' ++ [ConsoleError "Failed to create/renew membership:"
                    (Some e)])%list)
    end.
Proof.
  unfold Membership.createOrRenewMembership.
  destruct (Membership.membershipPolicy transaction frequency) as [typeId d].
  cbn [fst snd]. unfold tryCatch.
  destruct (Membership.upsert _ _ _ _ _ _ _) as [[v | e] tr']; reflexivity.
Qed.

Lemma membershipFor_returns (w : world) (contactInfo : contactInfo)
  (contributionId : value) (transaction : Tx.t) (tr : trace) :
  exists tr', Membership.membershipFor w contactInfo contributionId
                transaction tr = (Return tt, tr').
Proof.
  unfold Membership.membershipFor.
  destruct (strictEq _ _); [ | eexists; reflexivity ].
  unfold bind at 1.
  destruct (frequencyOf_returns w transaction tr) as (f & tr1 & ->).
  unfold bind. rewrite membership_contained.
  destruct (Membership.upsert _ _ _ _ _ _ _) as [[v | e] tr2];
    eexists; reflexivity.
Qed.

(** [createContribution] of the membership variant: as in the campaign
    variant, with the membership step run after a contribution reply. *)
Lemma membership_cases (w : world) (contactInfo : contactInfo)
  (transaction : Tx.t) (tr : trace) :
  Membership.createContribution w contactInfo transaction tr
  = match civicrm w (snd (resolveFinancialType w contactInfo transaction tr))
            (submit (contributionData w contactInfo transaction
                       (financialTypeId contactInfo transaction))) with
    | Resolved (Some made) =>
        (Return made,
         snd (Membership.membershipFor w contactInfo (idOf made) transaction
                (snd (resolveFinancialType w contactInfo transaction tr)
                 ++ [Request (submit (contributionData w contactInfo
                                        transaction
                                        (financialTypeId contactInfo
                                           transaction)))])%list))
    | Resolved None =>
        (Throw (TypeError "Cannot read properties of null (reading 'id')"),
         (snd (resolveFinancialType w contactInfo transaction tr)
          ++ [Request (submit (contributionData w contactInfo transaction
                                 (financialTypeId contactInfo transaction)))])%list)
    | Rejected e =>
        (Throw e,
         (snd (resolveFinancialType w contactInfo transaction tr)
          ++ [Request (submit (contributionData w contactInfo transaction
                                 (financialTypeId contactInfo transaction)));
              ConsoleError "CiviCRM API Error (Contribution.create):"
                (Some e)])%list)
    end.
Proof.
  unfold Membership.createContribution, bind at 1.
  rewrite resolve_cases. cbn [snd].
  unfold bind at 1, civiCRMApi, submit.
  match goal with
  | |- context [civicrm w ?t ?c] => destruct (civicrm w t c) as [[made |] | e]
  end; try reflexivity.
  cbn [deref]. unfold bind at 1, ret at 1. unfold bind.
  match goal with
  | |- context [Membership.membershipFor w ?a ?b ?c ?t] =>
      destruct (membershipFor_returns w a b c t) as [tr' ->]
  end.
  reflexivity.
Qed.

Lemma adds_getGivebutterPlan (w : world) (planId : value) :
  adds aside (Membership.getGivebutterPlan w planId).
Proof.
  unfold Membership.getGivebutterPlan.
  destruct (negb (truthy planId) || negb (truthy (GIVEBUTTER_API_KEY w)));
    [ apply Traces.adds_ret | ].
  intros tr.
  destruct (givebutter w tr planId); eexists; (split; [ reflexivity | ]);
    reflexivity.
Qed.

Lemma adds_membershipFor (w : world) (contactInfo : contactInfo)
  (contributionId : value) (transaction : Tx.t) :
  adds aside (Membership.membershipFor w contactInfo contributionId transaction).
Proof.
  unfold Membership.membershipFor, Membership.frequencyOf,
    Membership.createOrRenewMembership.
  apply Traces.adds_if; [ | apply Traces.adds_ret ].
  apply Traces.adds_bind.
  - apply Traces.adds_if; [ | apply Traces.adds_ret ].
    apply Traces.adds_bind; [ apply adds_getGivebutterPlan | ].
    Traces.grow.
  - intros frequency.
    destruct (Membership.membershipPolicy transaction frequency) as [t0 d0].
    unfold Membership.upsert. Traces.grow.
Qed.

Lemma aside_no_write_back (l : list event) :
  forallb aside l = true -> existsb isWriteBack l = false.
Proof.
  induction l as [| e l IH]; cbn; [ reflexivity | ].
  unfold aside at 1. intros H.
  apply andb_prop in H as [He Hl]. apply andb_prop in He as [He _].
  apply negb_true_iff in He. rewrite He. auto.
Qed.

Lemma updateLog_console (w : world) (contactInfo : contactInfo)
  (transaction : Tx.t) (tr : trace) :
  existsb isRequest (updateLog w contactInfo transaction tr) = false.
Proof. unfold updateLog. destruct (civicrm w tr _); reflexivity. Qed.

Lemma localAreaOf_truthy (transaction : Tx.t) (v : value) :
  CustomField.localAreaOf transaction = Some v -> truthy v = true.
Proof.
  unfold CustomField.localAreaOf.
  destruct (Tx.custom_fields transaction) as [[| f fs] |]; try discriminate.
  destruct (find _ _) as [field |]; try discriminate.
  destruct (truthy (Field.value field)) eqn:T; try discriminate.
  intros [= <-]. exact T.
Qed.




(** C6.  The write-back and the membership upsert keep their failures to
    themselves: each always returns, a failure is logged by the operation
    that caught it, and a failed upsert returns [null].  The contribution
    flow around them completes whenever CiviCRM accepts the contribution,
    whatever becomes of the write-back, the plan lookup and the membership
    requests. *)
Theorem enhancements_are_isolated (w : world) (contactInfo : contactInfo)
  (transaction : Tx.t) (contributionId frequency localArea : value)
  (made : Reply.t) (tr : trace) :
  fst (updateContactLocalArea w (id contactInfo) localArea tr) = Return tt
  /\ (forall e,
        civicrm w tr (writeBack (id contactInfo) localArea) = Rejected e ->
        In (ConsoleError "Failed to update contact Local Area:" (Some e))
           (snd (updateContactLocalArea w (id contactInfo) localArea tr)))
  /\ (exists membershipId,
        fst (Membership.createOrRenewMembership w (id contactInfo)
               contributionId transaction frequency tr)
        = Return membershipId)
  /\ (forall e tr',
        Membership.upsert w (id contactInfo) contributionId transaction
          (fst (Membership.membershipPolicy transaction frequency))
          (snd (Membership.membershipPolicy transaction frequency)) tr
        = (Throw e, tr') ->
        Membership.createOrRenewMembership w (id contactInfo) contributionId
          transaction frequency tr
        = (Return Null,
           (tr' ++ [ConsoleError "Failed to create/renew membership:"
                      (Some e)])%list))
  /\ ((forall tr0 c, civicrm w tr0 (submit c) = Resolved (Some made)) ->
      fst (Membership.createContribution w contactInfo transaction tr)
      = Return made
      /\ fst (Campaign.createContribution w contactInfo transaction tr)
         = Return made).
Proof.
  repeat split.
  - rewrite update_contained. reflexivity.
  - intros e He. rewrite update_contained, He. cbn [snd].
    apply in_or_app. right. cbn. auto.
  - rewrite membership_contained.
    destruct (Membership.upsert _ _ _ _ _ _ _) as [[v | e] tr'];
      eexists; reflexivity.
  - intros e tr' Hu. rewrite membership_contained, Hu. reflexivity.
  - rewrite membership_cases, H. reflexivity.
  - rewrite campaign_cases, H. reflexivity.
Qed.

(** With contact updates and every membership request failing, the
    contribution is still created and returned. *)
Lemma enhancements_are_isolated_witness :
  fst (Membership.createContribution
         (Examples.hostOf Examples.contributionsOnly Examples.noPlan)
         (Examples.contact7 Null) (Examples.donation (Str "Colorado")) [])
  = Return (Examples.created 8).
Proof.
  exact (proj1 (proj2 (proj2 (proj2 (proj2
           (enhancements_are_isolated
              (Examples.hostOf Examples.contributionsOnly Examples.noPlan)
              (Examples.contact7 Null) (Examples.donation (Str "Colorado"))
              Null Null Null (Examples.created 8) []))))
           (fun _ _ => eq_refl))).
Defined.

(** What that run leaves behind: the failed write-back with its two
    console lines, the contribution, the failed plan lookup, and the
    failed membership lookup with its two console lines. *)
Example isolated_failures_are_logged :
  map isRequest
    (snd (Membership.createContribution
            (Examples.hostOf Examples.contributionsOnly Examples.noPlan)
            (Examples.contact7 Null) (Examples.donation (Str "Colorado")) []))
  = [true; false; false; true; true; false; true; false; false].
Proof. reflexivity. Qed.

End ContributionFacts.

(* ================================================================== *)
(** * The amount *)

Module AmountFacts.
Import Common Observe LocalArea CategoryFacts ContributionFacts.

Lemma hundredth (q : Q) : (q / 100 == q <-> q == 0)%Q.
Proof.
  assert (q == q / 100 * 100)%Q as E by field.
  split; intros H.
  - rewrite H in E. lra.
  - rewrite H. reflexivity.
Qed.

(** The contribution request of each variant carries the payload its
    [contributionData] literal describes. *)
Lemma baseline_submits (w : world) (contactId : value) (transaction : Tx.t)
  (tr : trace) :
  exists rest,
    snd (Baseline.createContribution w contactId transaction tr)
    = (tr ++ Request (submit (Baseline.contributionData w contactId
                                transaction))
          :: rest)%list.
Proof.
  unfold Baseline.createContribution, submit.
  apply Traces.opens_with_request. Traces.grow.
Qed.

Lemma custom_field_submits (w : world) (contactId : value)
  (transaction : Tx.t) (tr : trace) :
  exists rest,
    snd (CustomField.createContribution w contactId transaction tr)
    = (tr ++ Request (submit (CustomField.contributionData w contactId
                                transaction))
          :: rest)%list.
Proof.
  unfold CustomField.createContribution, submit.
  apply Traces.opens_with_request. Traces.grow.
Qed.

Lemma later_submit (w : world) (contactInfo : contactInfo)
  (transaction : Tx.t) (tr : trace) :
  exists before,
    snd (resolveFinancialType w contactInfo transaction tr)
    = (tr ++ before)%list
    /\ existsb isContributionCreate before = false
    /\ (exists rest,
          snd (Campaign.createContribution w contactInfo transaction tr)
          = (tr ++ before
                ++ Request (submit (contributionData w contactInfo transaction
                                      (financialTypeId contactInfo
                                         transaction)))
                :: rest)%list)
    /\ (exists rest,
          snd (Membership.createContribution w contactInfo transaction tr)
          = (tr ++ before
                ++ Request (submit (contributionData w contactInfo transaction
                                      (financialTypeId contactInfo
                                         transaction)))
                :: rest)%list).
Proof.
  rewrite campaign_cases, membership_cases, resolve_cases. cbn [snd].
  exists (if writesBack contactInfo transaction
          then Request (writeBack (id contactInfo)
                          (localAreaValue contactInfo transaction))
               :: updateLog w contactInfo transaction tr
          else []).
  assert ((if writesBack contactInfo transaction
           then (tr ++ Request (writeBack (id contactInfo)
                                  (localAreaValue contactInfo transaction))
                    :: updateLog w contactInfo transaction tr)%list
           else tr)
          = (tr ++ (if writesBack contactInfo transaction
                    then Request (writeBack (id contactInfo)
                                    (localAreaValue contactInfo transaction))
                         :: updateLog w contactInfo transaction tr
                    else []))%list) as ->.
  { destruct (writesBack contactInfo transaction);
      [ reflexivity | now rewrite app_nil_r ]. }
  split; [ reflexivity | ]. split.
  { destruct (writesBack contactInfo transaction); [ | reflexivity ].
    cbn. unfold updateLog. destruct (civicrm w tr _); reflexivity. }
  split.
  - match goal with
    | |- context [civicrm w ?t ?c] =>
        destruct (civicrm w t c) as [[made |] | e]
    end; cbn [snd]; rewrite <- app_assoc; eexists; reflexivity.
  - match goal with
    | |- context [civicrm w ?t ?c] =>
        destruct (civicrm w t c) as [[made |] | e]
    end; cbn [snd]; try (rewrite <- app_assoc; eexists; reflexivity).
    match goal with
    | |- context [Membership.membershipFor w ?a ?b ?c ?t] =>
        destruct (adds_membershipFor w a b c t) as (more & -> & _)
    end.
    rewrite <- !app_assoc. eexists. reflexivity.
Qed.



End AmountFacts.

(* ================================================================== *)
(** * What the endpoints answer *)

Module HandlerFacts.
Import Common Observe LocalArea.

Lemma bind_returns {A B} (m : async A) (k : A -> async B) (tr tr' : trace)
  (b : B) :
  bind m k tr = (Return b, tr') ->
  exists a tr1, m tr = (Return a, tr1) /\ k a tr1 = (Return b, tr').
Proof.
  unfold bind. destruct (m tr) as [[a | e] tr1]; [ eauto | discriminate ].
Qed.

(** A verification that passes leaves the trace as it was. *)
Lemma passes_silently (w : world) (req : request) (tr : trace) :
  fst (verifyGivebutterSignature w req tr) = Return Next ->
  verifyGivebutterSignature w req tr = (Return Next, tr).
Proof.
  rewrite SignatureGate.verify_cases.
  destruct (signature req) as [s |]; [ | reflexivity ].
  destruct (s =? "")%string; [ reflexivity | ].
  destruct (s =? _)%string; [ reflexivity | discriminate ].
Qed.

Lemma route_passes (w : world) (handler : request -> async response)
  (req : request) (tr : trace) :
  fst (verifyGivebutterSignature w req tr) = Return Next ->
  route w handler req tr = handler req tr.
Proof.
  intros H. unfold route, bind. now rewrite (passes_silently _ _ _ H).
Qed.

(** Whatever the [try] block of a webhook handler returns has status
    200. *)
Lemma baseline_process_status (w : world) (b : body) (tr tr' : trace)
  (resp : response) :
  Baseline.process w b tr = (Return resp, tr') -> status resp = 200.
Proof.
  unfold Baseline.process.
  destruct (strictEq (event_ b) (Str "transaction.succeeded")).
  - intros H.
    apply bind_returns in H as (data & t1 & _ & H).
    apply bind_returns in H as (contactId & t2 & _ & H).
    apply bind_returns in H as (contribution & t3 & _ & H).
    injection H as <- _. reflexivity.
  - intros [= <- _]. reflexivity.
Qed.

Lemma custom_field_process_status (w : world) (b : body) (tr tr' : trace)
  (resp : response) :
  CustomField.process w b tr = (Return resp, tr') -> status resp = 200.
Proof.
  unfold CustomField.process.
  destruct (strictEq (event_ b) (Str "transaction.succeeded")).
  - intros H.
    apply bind_returns in H as (data & t1 & _ & H).
    apply bind_returns in H as (contactId & t2 & _ & H).
    apply bind_returns in H as (contribution & t3 & _ & H).
    injection H as <- _. reflexivity.
  - intros [= <- _]. reflexivity.
Qed.

Lemma later_process_status (w : world)
  (createContribution : contactInfo -> Tx.t -> async Reply.t)
  (b : body) (tr tr' : trace) (resp : response) :
  process w createContribution b tr = (Return resp, tr') -> status resp = 200.
Proof.
  unfold process.
  destruct (strictEq (event_ b) (Str "transaction.succeeded")).
  - intros H.
    apply bind_returns in H as (data & t1 & _ & H).
    apply bind_returns in H as (contactId & t2 & _ & H).
    apply bind_returns in H as (contribution & t3 & _ & H).
    injection H as <- _. reflexivity.
  - intros [= <- _]. reflexivity.
Qed.

(** C8.  When the processing of a [transaction.succeeded] delivery throws,
    the webhook endpoint answers status 200 with [success: false] and the
    error's message, in every variant; when the pipeline of the test
    endpoint throws, that endpoint answers status 500 with [success:
    false] and the error's message. *)
Theorem failures_answered (w : world) (req : request) (tr tr' : trace)
  (e : error) :
  fst (verifyGivebutterSignature w req tr) = Return Next ->
  (Baseline.process w (reqBody req) tr = (Throw e, tr') ->
   fst (Baseline.webhook w req tr)
   = Return {| status := 200;
               sent := Json [("success", Bool false);
                             ("error", Str (message e))] |})
  /\ (CustomField.process w (reqBody req) tr = (Throw e, tr') ->
      fst (CustomField.webhook w req tr)
      = Return {| status := 200;
                  sent := Json [("success", Bool false);
                                ("error", Str (message e))] |})
  /\ (process w (Membership.createContribution w) (reqBody req) tr
      = (Throw e, tr') ->
      fst (Membership.webhook w req tr)
      = Return {| status := 200;
                  sent := Json [("success", Bool false);
                                ("error", Str (message e))] |})
  /\ (process w (Campaign.createContribution w) (reqBody req) tr
      = (Throw e, tr') ->
      fst (Campaign.webhook w req tr)
      = Return {| status := 200;
                  sent := Json [("success", Bool false);
                                ("error", Str (message e))] |})
  /\ (Baseline.testPipeline w tr = (Throw e, tr') ->
      fst (Baseline.test w tr)
      = Return {| status := 500;
                  sent := Json [("success", Bool false);
                                ("error", Str (message e))] |})
  /\ (CustomField.testPipeline w tr = (Throw e, tr') ->
      fst (CustomField.test w tr)
      = Return {| status := 500;
                  sent := Json [("success", Bool false);
                                ("error", Str (message e))] |})
  /\ (Membership.testPipeline w tr = (Throw e, tr') ->
      fst (Membership.test w tr)
      = Return {| status := 500;
                  sent := Json [("success", Bool false);
                                ("error", Str (message e))] |})
  /\ (Campaign.testPipeline w tr = (Throw e, tr') ->
      fst (Campaign.test w tr)
      = Return {| status := 500;
                  sent := Json [("success", Bool false);
                                ("error", Str (message e))] |}).
Proof.
  intros Hpass.
  unfold Baseline.webhook, CustomField.webhook, Membership.webhook,
    Campaign.webhook.
  rewrite !(route_passes _ _ _ _ Hpass).
  unfold Baseline.handler, CustomField.handler, handler, Baseline.test,
    CustomField.test, Membership.test, Campaign.test, tryCatch.
  repeat split; intros ->; reflexivity.
Qed.

(** CiviCRM is unreachable: the delivery is answered 200 with the network
    error's message. *)
Lemma failures_answered_witness :
  fst (Baseline.webhook Examples.offline
         (Examples.delivery None (Str "transaction.succeeded")
            (Some (Examples.donation (Str "Colorado")))) [])
  = Return {| status := 200;
              sent := Json [("success", Bool false);
                            ("error", Str "Network Error")] |}.
Proof.
  exact (proj1
           (failures_answered Examples.offline
              (Examples.delivery None (Str "transaction.succeeded")
                 (Some (Examples.donation (Str "Colorado"))))
              [] _ Examples.networkError eq_refl)
           eq_refl).
Defined.

(** The same outage seen from the test endpoint: 500. *)
Example test_endpoint_reports_outage :
  fst (run (Baseline.test Examples.offline))
  = Return {| status := 500;
              sent := Json [("success", Bool false);
                            ("error", Str "Network Error")] |}.
Proof. reflexivity. Qed.



(** End to end on a CiviCRM that does not know the donor: an unsigned
    delivery of a "Colorado" donation of 25 to the main campaign is
    answered 200 with the new contact 7 and contribution 8, after four
    requests: the lookup, the contact, the label written onto it, and the
    contribution in category 20. *)
Example new_donor_end_to_end :
  run (Campaign.webhook (Examples.hostOf Examples.fresh Examples.noPlan)
         (Examples.delivery None (Str "transaction.succeeded")
            (Some (Examples.donation (Str "Colorado")))))
  = (Return {| status := 200;
               sent := Json [("success", Bool true);
                             ("contact_id", Num 7);
                             ("contribution_id", Num 8)] |},
     [ Request (Resolution.lookup Examples.ada
                  (Some "id,display_name,custom_820"));
       Request (Resolution.create Examples.ada);
       Request (writeBack (Num 7) (Str "Colorado"));
       Request
         (submit
            {| Contribution.contact_id := Num 7;
               Contribution.financial_type_id := Num 20;
               Contribution.total_amount := 25;
               Contribution.receive_date := Str "2025-11-02T09:59:58.000Z";
               Contribution.source := "Givebutter: Membership Drive";
               Contribution.trxn_id := Str "txn_1";
               Contribution.invoice_id := Str "txn_1";
               Contribution.contribution_status_id := 1;
               Contribution.payment_instrument_id := 1 |}) ]).
Proof. reflexivity. Qed.

End HandlerFacts.

(* ================================================================== *)
(** * Beyond the claims: labels, fields and campaigns *)

Module PolicyFacts.
Import Common Observe LocalArea CategoryFacts.

Lemma find_first {A} (P : A -> bool) (pre post : list A) (x : A) :
  forallb (fun y => negb (P y)) pre = true ->
  P x = true ->
  find P (pre ++ x :: post)%list = Some x.
Proof.
  induction pre as [| y pre IH]; cbn; intros Hpre Hx.
  - now rewrite Hx.
  - apply andb_prop in Hpre as [Hy Hpre].
    apply negb_true_iff in Hy. rewrite Hy. auto.
Qed.

Lemma find_none {A} (P : A -> bool) (l : list A) :
  forallb (fun y => negb (P y)) l = true -> find P l = None.
Proof.
  induction l as [| y l IH]; cbn; [ reflexivity | ].
  intros H. apply andb_prop in H as [Hy Hl].
  apply negb_true_iff in Hy. rewrite Hy. auto.
Qed.

(** Every label the table lists yields the id listed for it: no entry is
    shadowed by an earlier one or lost to the default. *)
Theorem listed_label_category (label : string) (category : value)
  (w : world) (contactId : value) (contactInfo : contactInfo)
  (transaction : Tx.t) (tr : trace) :
  In (label, category) localAreaMapping ->
  (CustomField.localAreaOf transaction = Some (Str label) ->
   Contribution.financial_type_id
     (CustomField.contributionData w contactId transaction) = category)
  /\ (campaignMapping transaction = Str "use_custom_field" ->
      localAreaValue contactInfo transaction = Str label ->
      fst (resolveFinancialType w contactInfo transaction tr)
      = Return category).
Proof.
  intros Hin.
  assert (truthy (Str label) = true
          /\ or (get localAreaMapping (Str label)) (Num 49) = category)
    as [Ht Hget].
  { cbn in Hin.
    repeat (destruct Hin as [Hin | Hin];
            [ injection Hin as <- <-; split; reflexivity | ]).
    contradiction. }
  split.
  - intros Hl.
    cbn [CustomField.contributionData Contribution.financial_type_id].
    unfold CustomField.financialTypeId. rewrite Hl. exact Hget.
  - intros Hp Hv. rewrite resolve_cases. cbn [fst].
    unfold financialTypeId. rewrite Hp, Hv.
    change (strictEq (Str "use_custom_field") (Str "use_custom_field"))
      with true. cbv iota zeta. rewrite Ht. now f_equal.
Qed.

Lemma listed_label_category_witness :
  Contribution.financial_type_id
    (CustomField.contributionData Examples.offline (Str "7")
       (Examples.donation (Str "Heartland")))
  = Num 139.
Proof.
  apply (proj1 (listed_label_category "Heartland" (Num 139) Examples.offline
                  (Str "7") (Examples.contact7 Null)
                  (Examples.donation (Str "Heartland")) []
                  ltac:(cbn; tauto))).
  reflexivity.
Defined.

(** Only the first entry of [custom_fields] that is titled "Local Area" or
    has field id 64260 is looked at: its value is the label if truthy, and
    if it is not, no later entry is consulted.  With no such entry, or
    with an absent or empty list, the transaction brings no label. *)
Theorem first_local_area_field_decides (transaction : Tx.t) :
  (forall pre field post,
     Tx.custom_fields transaction = Some (pre ++ field :: post)%list ->
     forallb (fun f => negb (CustomField.isLocalArea f)) pre = true ->
     CustomField.isLocalArea field = true ->
     CustomField.localAreaOf transaction
     = if truthy (Field.value field) then Some (Field.value field) else None)
  /\ (forall fields,
        Tx.custom_fields transaction = Some fields ->
        forallb (fun f => negb (CustomField.isLocalArea f)) fields = true ->
        CustomField.localAreaOf transaction = None)
  /\ (Tx.custom_fields transaction = None ->
      CustomField.localAreaOf transaction = None).
Proof.
  unfold CustomField.localAreaOf. repeat split.
  - intros pre field post -> Hpre Hfield.
    pose proof (find_first _ pre post field Hpre Hfield) as Hfind.
    destruct (pre ++ field :: post)%list as [| f fs] eqn:E.
    { destruct pre; discriminate. }
    rewrite Hfind. reflexivity.
  - intros fields -> Hnone.
    destruct fields as [| f fs]; [ reflexivity | ].
    now rewrite (find_none _ _ Hnone).
  - intros ->. reflexivity.
Qed.

(** A "Local Area" entry left empty, followed by an entry with field id
    64260 and the value "Colorado": the transaction brings no label. *)
Lemma first_local_area_field_decides_witness :
  CustomField.localAreaOf
    (Examples.gift (Str "195519")
       (Some [ Examples.field 1 "Employer" "ACME";
               Examples.field 2 "Local Area" "";
               Examples.field 64260 "Area" "Colorado" ]))
  = None.
Proof.
  exact (proj1 (first_local_area_field_decides
                  (Examples.gift (Str "195519")
                     (Some [ Examples.field 1 "Employer" "ACME";
                             Examples.field 2 "Local Area" "";
                             Examples.field 64260 "Area" "Colorado" ])))
           [ Examples.field 1 "Employer" "ACME" ]
           (Examples.field 2 "Local Area" "")
           [ Examples.field 64260 "Area" "Colorado" ]
           eq_refl eq_refl eq_refl).
Defined.

(** A name that is no property of the campaign table at all. *)
Lemma campaign_unlisted (transaction : Tx.t) :
  toString (Tx.campaign_id transaction) <> "195519" ->
  inherited (toString (Tx.campaign_id transaction)) = false ->
  campaignMapping transaction = Undefined.
Proof.
  intros Hne Hinh. unfold campaignMapping, get. cbn [own campaignFinancialTypeMapping].
  apply String.eqb_neq in Hne. rewrite String.eqb_sym, Hne, Hinh. reflexivity.
Qed.

(** A campaign the campaign table does not list gets the default category
    49 whatever "Local Area" label the transaction or the contact carries,
    and nothing is written back onto the contact: in the two last variants
    the contribution request is the first thing [createContribution]
    sends. *)
Theorem unlisted_campaign_defaults (w : world) (contactInfo : contactInfo)
  (transaction : Tx.t) (tr : trace) :
  toString (Tx.campaign_id transaction) <> "195519" ->
  inherited (toString (Tx.campaign_id transaction)) = false ->
  resolveFinancialType w contactInfo transaction tr = (Return (Num 49), tr)
  /\ (exists rest,
        snd (Campaign.createContribution w contactInfo transaction tr)
        = (tr ++ Request (submit (contributionData w contactInfo transaction
                                    (Num 49)))
              :: rest)%list)
  /\ (exists rest,
        snd (Membership.createContribution w contactInfo transaction tr)
        = (tr ++ Request (submit (contributionData w contactInfo transaction
                                    (Num 49)))
              :: rest)%list).
Proof.
  intros Hne Hinh.
  pose proof (campaign_unlisted transaction Hne Hinh) as Hc.
  assert (financialTypeId contactInfo transaction = Num 49) as Hf.
  { unfold financialTypeId. rewrite Hc. reflexivity. }
  assert (writesBack contactInfo transaction = false) as Hw.
  { unfold writesBack. rewrite Hc. reflexivity. }
  assert (resolveFinancialType w contactInfo transaction tr
          = (Return (Num 49), tr)) as Hr.
  { rewrite resolve_cases, Hf, Hw. reflexivity. }
  split; [ exact Hr | split ].
  - rewrite ContributionFacts.campaign_cases, Hr, Hf. cbn [snd].
    destruct (civicrm w tr _) as [[made |] | e]; eexists; reflexivity.
  - rewrite ContributionFacts.membership_cases, Hr, Hf. cbn [snd].
    destruct (civicrm w tr _) as [[made |] | e];
      try (eexists; reflexivity).
    match goal with
    | |- context [Membership.membershipFor w ?a ?b ?c ?t] =>
        destruct (ContributionFacts.adds_membershipFor w a b c t)
          as (more & -> & _)
    end.
    rewrite <- app_assoc. eexists. reflexivity.
Qed.

(** A "Colorado" donation to another campaign, by a contact stored as
    "Colorado": category 49, nothing sent. *)
Lemma unlisted_campaign_defaults_witness :
  resolveFinancialType (Examples.hostOf Examples.fresh Examples.noPlan)
    (Examples.contact7 (Str "Colorado"))
    (Examples.gift (Str "200000")
       (Some [ Examples.field 64260 "Local Area" "Colorado" ])) []
  = (Return (Num 49), []).
Proof.
  apply (unlisted_campaign_defaults
           (Examples.hostOf Examples.fresh Examples.noPlan)
           (Examples.contact7 (Str "Colorado"))
           (Examples.gift (Str "200000")
              (Some [ Examples.field 64260 "Local Area" "Colorado" ])) []).
  - discriminate.
  - reflexivity.
Defined.

(** The contact is left alone unless it has to change: when the campaign
    is not under the custom-field policy, when the transaction brings no
    label, or when the label it brings is the one already stored, the
    category policy sends nothing, and [createContribution] of the
    campaign variant opens with the contribution request. *)
Theorem no_needless_write_back (w : world) (contactInfo : contactInfo)
  (transaction : Tx.t) (tr : trace) :
  campaignMapping transaction <> Str "use_custom_field"
  \/ CustomField.localAreaOf transaction = None
  \/ CustomField.localAreaOf transaction = Some (localArea contactInfo) ->
  snd (resolveFinancialType w contactInfo transaction tr) = tr
  /\ exists rest,
       snd (Campaign.createContribution w contactInfo transaction tr)
       = (tr ++ Request (submit (contributionData w contactInfo transaction
                                   (financialTypeId contactInfo transaction)))
             :: rest)%list
       /\ existsb isRequest rest = false.
Proof.
  intros H.
  assert (writesBack contactInfo transaction = false) as Hw.
  { unfold writesBack, shouldUpdateContact.
    destruct H as [H | [H | H]].
    - apply strictEq_neq in H. now rewrite H.
    - rewrite H. apply andb_false_intro1, andb_false_intro2. reflexivity.
    - rewrite H.
      rewrite (ContributionFacts.localAreaOf_truthy _ _ H).
      rewrite (proj2 (strictEq_eq _ _) eq_refl).
      apply andb_false_intro1, andb_false_intro2. reflexivity. }
  assert (snd (resolveFinancialType w contactInfo transaction tr) = tr) as Hr.
  { rewrite resolve_cases, Hw. reflexivity. }
  split; [ exact Hr | ].
  rewrite ContributionFacts.campaign_cases, Hr.
  destruct (civicrm w tr _) as [[made |] | e]; eexists;
    (split; [ reflexivity | reflexivity ]).
Qed.

(** A second "Colorado" donation by a contact already stored as
    "Colorado": two requests less than the first, the contribution
    only. *)
Lemma no_needless_write_back_witness :
  snd (resolveFinancialType (Examples.hostOf Examples.fresh Examples.noPlan)
         (Examples.contact7 (Str "Colorado"))
         (Examples.donation (Str "Colorado")) [])
  = [].
Proof.
  exact (proj1 (no_needless_write_back
                  (Examples.hostOf Examples.fresh Examples.noPlan)
                  (Examples.contact7 (Str "Colorado"))
                  (Examples.donation (Str "Colorado")) []
                  (or_intror (or_intror eq_refl)))).
Defined.

(** The membership step belongs to the campaign whose id is the string
    "195519": for any other campaign id, the number 195519 included,
    [createContribution] of the membership variant does exactly what the
    one of the campaign variant does, result and trace. *)
Theorem membership_only_for_main_campaign (w : world)
  (contactInfo : contactInfo) (transaction : Tx.t) (tr : trace) :
  Tx.campaign_id transaction <> Str "195519" ->
  Membership.createContribution w contactInfo transaction tr
  = Campaign.createContribution w contactInfo transaction tr.
Proof.
  intros Hne. apply MembershipFacts.strictEq_Str_false in Hne.
  rewrite ContributionFacts.membership_cases, ContributionFacts.campaign_cases.
  destruct (civicrm w _ _) as [[made |] | e]; try reflexivity.
  unfold Membership.membershipFor. rewrite Hne. reflexivity.
Qed.

(** The campaign id sent as a number: the category comes from the label,
    as for the main campaign, and no membership is touched. *)
Lemma membership_only_for_main_campaign_witness :
  Membership.createContribution
    (Examples.hostOf Examples.fresh Examples.monthlyPlan)
    (Examples.contact7 Null)
    (Examples.gift (Num 195519)
       (Some [ Examples.field 64260 "Local Area" "Colorado" ])) []
  = Campaign.createContribution
      (Examples.hostOf Examples.fresh Examples.monthlyPlan)
      (Examples.contact7 Null)
      (Examples.gift (Num 195519)
         (Some [ Examples.field 64260 "Local Area" "Colorado" ])) []
  /\ campaignMapping
       (Examples.gift (Num 195519)
          (Some [ Examples.field 64260 "Local Area" "Colorado" ]))
     = Str "use_custom_field".
Proof.
  split; [ | reflexivity ].
  apply (membership_only_for_main_campaign
           (Examples.hostOf Examples.fresh Examples.monthlyPlan)
           (Examples.contact7 Null)
           (Examples.gift (Num 195519)
              (Some [ Examples.field 64260 "Local Area" "Colorado" ])) []).
  discriminate.
Defined.

End PolicyFacts.

(* ================================================================== *)
(** * Beyond the claims: the membership upsert *)

Module UpsertFacts.
Import Common Observe Watch LocalArea Membership JSDate DateFacts Window.


Lemma Day_mono (t t' : Z) : t <= t' -> Day t <= Day t'.
Proof. intros H. unfold Day, msPerDay. apply Z.div_le_mono; lia. Qed.

Lemma plus_years (day : Z) :
  365 <= plusDuration oneYear day - day <= 366.
Proof.
  unfold plusDuration. cbn [years months oneYear numberOf].
  set (t := MakeDate day 0).
  assert (Day t = day) as HD by (apply Day_MakeDate; unfold msPerDay; lia).
  pose proof (MonthFromTime_range t) as HM.
  unfold MakeDay, DateFromTime, InLeapYear, DayWithinYear.
  rewrite HD.
  set (Y := YearFromTime t) in *.
  set (M := MonthFromTime t) in *.
  rewrite Z.add_0_r.
  replace (M / 12) with 0 by (symmetry; apply Z.div_small; lia).
  rewrite Z.mod_small by lia. rewrite Z.add_0_r.
  rewrite DayFromYear_succ. unfold DaysInYear.
  destruct (month_cases M HM)
    as [-> | [-> | [-> | [-> | [-> | [-> | [-> | [-> | [-> | [-> | [-> | ->]]]]]]]]]]];
    destruct (leapYear Y), (leapYear (Y + 1)); cbn; lia.
Qed.

Lemma plus_months (n : Z) (day : Z) :
  (n = 1 -> 28 <= plusDuration (monthsOf n) day - day <= 31)
  /\ (n = 3 -> 89 <= plusDuration (monthsOf n) day - day <= 92).
Proof.
  unfold plusDuration. cbn [years months monthsOf numberOf].
  set (t := MakeDate day 0).
  assert (Day t = day) as HD by (apply Day_MakeDate; unfold msPerDay; lia).
  pose proof (MonthFromTime_range t) as HM.
  unfold MakeDay, DateFromTime, InLeapYear, DayWithinYear.
  rewrite HD.
  set (Y := YearFromTime t) in *.
  set (M := MonthFromTime t) in *.
  rewrite Z.add_0_r.
  pose proof (DayFromYear_succ Y) as HS. unfold DaysInYear in HS.
  split; intros ->;
    destruct (month_cases M HM)
      as [-> | [-> | [-> | [-> | [-> | [-> | [-> | [-> | [-> | [-> | [-> | ->]]]]]]]]]]];
    cbn -[DayFromYear leapYear]; rewrite ?Z.add_0_r;
    destruct (leapYear Y), (leapYear (Y + 1)); cbn -[DayFromYear] in *; lia.
Qed.



(** No membership is written on a lookup that did not answer properly:
    when the [Membership.get] request fails, answers [null], or reports a
    count above zero without a first row, the upsert logs the failure,
    returns [null] and sends nothing after the lookup. *)
Theorem failed_lookup_writes_nothing (w : world)
  (contactId contributionId : value) (transaction : Tx.t)
  (frequency : value) (tr : trace) :
  (forall e,
     civicrm w tr (lookup contactId
                     (fst (membershipPolicy transaction frequency)))
     = Rejected e ->
     createOrRenewMembership w contactId contributionId transaction
       frequency tr
     = (Return Null,
        (tr ++ [ Request (lookup contactId
                            (fst (membershipPolicy transaction frequency)));
                 ConsoleError "CiviCRM API Error (Membership.get):" (Some e);
                 ConsoleError "Failed to create/renew membership:" (Some e) ])%list))
  /\ (civicrm w tr (lookup contactId
                      (fst (membershipPolicy transaction frequency)))
      = Resolved None
      \/ (exists found,
            civicrm w tr (lookup contactId
                            (fst (membershipPolicy transaction frequency)))
            = Resolved (Some found)
            /\ positive (Reply.count found) = true
            /\ first (Reply.values found) = None) ->
      exists e,
        createOrRenewMembership w contactId contributionId transaction
          frequency tr
        = (Return Null,
           (tr ++ [ Request (lookup contactId
                               (fst (membershipPolicy transaction frequency)));
                    ConsoleError "Failed to create/renew membership:"
                      (Some e) ])%list)).
Proof.
  rewrite ContributionFacts.membership_contained.
  destruct (membershipPolicy transaction frequency) as [typeId d].
  cbn [fst snd].
  unfold upsert, bind, civiCRMApi. fold (lookup contactId typeId).
  split.
  - intros e ->. cbn. rewrite <- app_assoc. reflexivity.
  - intros [-> | (found & -> & Hc & Hf)].
    + cbn. rewrite <- app_assoc. eexists. reflexivity.
    + cbn [deref ret]. rewrite Hc.
      destruct (Reply.values found) as [| rows | rows];
        [ | rewrite Hf | rewrite Hf ];
        cbn; rewrite <- app_assoc; eexists; reflexivity.
Qed.

(** CiviCRM refuses the membership lookup: three events, no write. *)
Lemma failed_lookup_writes_nothing_witness :
  createOrRenewMembership
    (Examples.hostOf Examples.contributionsOnly Examples.noPlan)
    (Str "7") (Num 8) (Examples.donation (Str "Colorado")) (Str "monthly") []
  = (Return Null,
     [ Request (lookup (Str "7") 10);
       ConsoleError "CiviCRM API Error (Membership.get):"
         (Some Examples.networkError);
       ConsoleError "Failed to create/renew membership:"
         (Some Examples.networkError) ]).
Proof.
  exact (proj1 (failed_lookup_writes_nothing
                  (Examples.hostOf Examples.contributionsOnly Examples.noPlan)
                  (Str "7") (Num 8) (Examples.donation (Str "Colorado"))
                  (Str "monthly") [])
           Examples.networkError eq_refl).
Defined.

(** The plan lookup never fails the flow and asks at most once: the
    frequency it yields is [null] or a truthy value of the plan; nothing is
    requested when the transaction has no plan id or no API key is
    configured, and otherwise exactly one plan request is sent, followed at
    most by a console line. *)
Theorem plan_lookup_contained (w : world) (transaction : Tx.t) (tr : trace) :
  exists frequency log,
    frequencyOf w transaction tr
    = (Return frequency,
       (tr ++ (if truthy (Tx.plan_id transaction)
                  && truthy (GIVEBUTTER_API_KEY w)
               then PlanRequest (Tx.plan_id transaction) :: log
               else []))%list)
    /\ (frequency = Null \/ truthy frequency = true)
    /\ existsb isRequest log = false.
Proof.
  unfold frequencyOf, getGivebutterPlan, bind.
  destruct (truthy (Tx.plan_id transaction)); cbn [andb negb orb].
  - destruct (truthy (GIVEBUTTER_API_KEY w)); cbn [negb].
    + destruct (givebutter w tr (Tx.plan_id transaction)) as [[plan |] | e].
      * destruct (truthy (Plan.frequency plan)) eqn:T.
        -- exists (Plan.frequency plan), []. cbn. auto.
        -- exists Null, []. cbn. auto.
      * exists Null, []. cbn. auto.
      * exists Null,
          [ConsoleError "Failed to fetch plan from Givebutter:" (Some e)].
        cbn. auto.
    + exists Null, []. cbn. rewrite app_nil_r. auto.
  - exists Null, []. cbn. rewrite app_nil_r. auto.
Qed.

Lemma strictEq_refl (v : value) : strictEq v v = true.
Proof. now apply CategoryFacts.strictEq_eq. Qed.

Lemma linked_write (contactId contributionId : value) (m : MembershipData.t) :
  MembershipData.contact_id m = contactId ->
  MembershipData.contribution_id m = contributionId ->
  linkedTo contactId contributionId (Request (write m)) = true.
Proof. intros <- <-. cbn. now rewrite !strictEq_refl. Qed.

(** Sequencing, when what the first computation returns is known to
    satisfy [Q]. *)
Lemma adds_bind_post {A B} (P : event -> bool) (Q : A -> Prop)
  (m : async A) (k : A -> async B) :
  (forall tr, exists more,
      snd (m tr) = (tr ++ more)%list
      /\ forallb P more = true
      /\ forall a, fst (m tr) = Return a -> Q a) ->
  (forall a, Q a -> adds P (k a)) ->
  adds P (bind m k).
Proof.
  intros Hm Hk tr. unfold bind.
  destruct (Hm tr) as (more & Hmore & HP & HQ).
  destruct (m tr) as [[a | e] tr']; cbn in Hmore; subst tr'.
  - destruct (Hk a (HQ a eq_refl) (tr ++ more)%list) as (more' & -> & HP').
    exists (more ++ more')%list.
    now rewrite app_assoc, forallb_app, HP, HP'.
  - exists more. auto.
Qed.

Lemma adds_linked_upsert (w : world) (contactId contributionId : value)
  (transaction : Tx.t) (typeId : Z) (d : duration) :
  adds (linkedTo contactId contributionId)
    (upsert w contactId contributionId transaction typeId d).
Proof.
  unfold upsert.
  apply Traces.adds_bind; [ Traces.grow | intros existingMembership ].
  cbv zeta.
  apply Traces.adds_bind; [ Traces.grow | intros found ].
  apply (adds_bind_post _
           (fun m => MembershipData.contact_id m = contactId
                     /\ MembershipData.contribution_id m = contributionId)).
  - intros tr. exists []. rewrite app_nil_r.
    destruct (positive (Reply.count found)).
    + destruct (Reply.values found) as [| rows | rows];
        [ | destruct (first (Array rows)) | destruct (first (Object rows)) ];
        cbn; (split; [ reflexivity | split; [ reflexivity | ] ]);
        intros a H; try discriminate; injection H as <-; auto.
    + cbn. split; [ reflexivity | split; [ reflexivity | ] ].
      intros a [= <-]. auto.
  - intros m [Hc Hk].
    apply Traces.adds_bind; [ | Traces.grow ].
    apply Traces.adds_civiCRMApi; [ | reflexivity ].
    now apply linked_write.
Qed.

Lemma adds_linked_plan (w : world) (contactId contributionId planId : value) :
  adds (linkedTo contactId contributionId) (getGivebutterPlan w planId).
Proof.
  unfold getGivebutterPlan.
  destruct (negb (truthy planId) || negb (truthy (GIVEBUTTER_API_KEY w)));
    [ apply Traces.adds_ret | ].
  intros tr.
  destruct (givebutter w tr planId); eexists; (split; [ reflexivity | ]);
    reflexivity.
Qed.

Lemma adds_linked_membershipFor (w : world) (contactInfo : contactInfo)
  (contributionId : value) (transaction : Tx.t) :
  adds (linkedTo (id contactInfo) contributionId)
    (membershipFor w contactInfo contributionId transaction).
Proof.
  unfold membershipFor, frequencyOf, createOrRenewMembership.
  apply Traces.adds_if; [ | apply Traces.adds_ret ].
  apply Traces.adds_bind.
  - apply Traces.adds_if; [ | apply Traces.adds_ret ].
    apply Traces.adds_bind; [ apply adds_linked_plan | ].
    Traces.grow.
  - intros frequency.
    destruct (membershipPolicy transaction frequency) as [typeId d].
    apply Traces.adds_bind; [ | Traces.grow ].
    apply Traces.adds_tryCatch; [ apply adds_linked_upsert | Traces.grow ].
Qed.

(** Every membership the contribution flow writes belongs to the contact
    the contribution was made for and points at the contribution just
    created: its [contact_id] is the contact's id and its
    [contribution_id] the id read from the contribution reply. *)
Theorem membership_linked_to_contribution (w : world)
  (contactInfo : contactInfo) (transaction : Tx.t) (tr : trace)
  (made : Reply.t) :
  civicrm w (snd (resolveFinancialType w contactInfo transaction tr))
    (submit (contributionData w contactInfo transaction
               (financialTypeId contactInfo transaction)))
  = Resolved (Some made) ->
  exists new,
    snd (Membership.createContribution w contactInfo transaction tr)
    = (tr ++ new)%list
    /\ forallb (linkedTo (id contactInfo) (idOf made)) new = true.
Proof.
  intros Hmade.
  rewrite ContributionFacts.membership_cases, Hmade. cbn [snd].
  match goal with
  | |- context [membershipFor w ?a ?b ?c ?t] =>
      destruct (adds_linked_membershipFor w a b c t) as (more & -> & Hmore)
  end.
  rewrite CategoryFacts.resolve_cases. cbn [snd].
  destruct (writesBack contactInfo transaction).
  - eexists. rewrite <- !app_assoc. cbn [app]. split; [ reflexivity | ].
    cbn [forallb linkedTo writeBack parameters].
    rewrite forallb_app. cbn [forallb linkedTo submit parameters].
    rewrite Hmore, andb_true_r. cbn.
    unfold updateLog. destruct (civicrm w tr _); reflexivity.
  - eexists. rewrite <- !app_assoc. cbn [app]. split; [ reflexivity | ].
    cbn [forallb linkedTo submit parameters]. exact Hmore.
Qed.

(** A recurring first donation on a monthly plan: the membership created
    carries contact 7 and contribution 8. *)
Lemma membership_linked_to_contribution_witness :
  exists new,
    snd (Membership.createContribution
           (Examples.hostOf Examples.fresh Examples.monthlyPlan)
           (Examples.contact7 Null) (Examples.donation (Str "Colorado")) [])
    = new
    /\ forallb (linkedTo (Str "7") (Num 8)) new = true
    /\ Watch.count isMembershipWrite new = 1%nat.
Proof.
  destruct (membership_linked_to_contribution
              (Examples.hostOf Examples.fresh Examples.monthlyPlan)
              (Examples.contact7 Null) (Examples.donation (Str "Colorado"))
              [] (Examples.created 8) eq_refl)
    as (new & Hnew & Hl).
  cbn [app] in Hnew.
  exists new. split; [ exact Hnew | ]. split; [ exact Hl | ].
  rewrite <- Hnew. reflexivity.
Defined.

End UpsertFacts.

(* ================================================================== *)
(** * Beyond the claims: the flow of one delivery *)

Module FlowFacts.
Import Common Observe Watch Resolution LocalArea.

(** Contact resolution of the two last variants.  A lookup that reports a
    contact yields its id and its stored local area, [null] when none is
    stored, and creates nothing; a lookup that reports none is followed by
    exactly one create request, and the new contact has no stored local
    area; a lookup that fails is rethrown and creates nothing.  The local
    area returned is never a falsy value other than [null]. *)
Theorem stored_area_resolution (w : world) (data : Donor.t) (tr : trace) :
  (forall found contact,
     civicrm w tr (lookup data (Some "id,display_name,custom_820"))
     = Resolved (Some found) ->
     reportsLater found = Some contact ->
     findOrCreateContact w data tr
     = (Return {| id := or (Row.id contact) (Row.contact_id contact);
                  localArea := or (Row.custom_820 contact) Null |},
        (tr ++ [Request (lookup data (Some "id,display_name,custom_820"))])%list))
  /\ (forall found made,
        civicrm w tr (lookup data (Some "id,display_name,custom_820"))
        = Resolved (Some found) ->
        reportsLater found = None ->
        civicrm w
          (tr ++ [Request (lookup data (Some "id,display_name,custom_820"))])%list
          (create data)
        = Resolved (Some made) ->
        findOrCreateContact w data tr
        = (Return {| id := idOf made; localArea := Null |},
           (tr ++ [Request (lookup data (Some "id,display_name,custom_820"));
                   Request (create data)])%list))
  /\ (forall e,
        civicrm w tr (lookup data (Some "id,display_name,custom_820"))
        = Rejected e ->
        fst (findOrCreateContact w data tr) = Throw e
        /\ creations (snd (findOrCreateContact w data tr)) = creations tr)
  /\ (forall info tr',
        findOrCreateContact w data tr = (Return info, tr') ->
        localArea info = Null \/ truthy (localArea info) = true).
Proof.
  destruct (findOrCreateContact w data tr) as [r t] eqn:E.
  unfold findOrCreateContact, bind, civiCRMApi in E.
  fold (lookup data (Some "id,display_name,custom_820")) in E.
  fold (create data) in E.
  unfold reportsLater.
  split; [ | split; [ | split ] ].
  - intros found contact H Hc. rewrite H in E. cbn [deref ret] in E.
    destruct (positive (Reply.count found));
      [ destruct (Reply.values found) as [| [| c rows] | rows] | ];
      try discriminate.
    injection Hc as <-. symmetry. exact E.
  - intros found made H Hc Hm. rewrite H in E. cbn [deref ret] in E.
    destruct (positive (Reply.count found));
      [ destruct (Reply.values found) as [| [| c rows] | rows] | ];
      try discriminate; rewrite Hm in E; cbn in E; rewrite <- app_assoc in E;
      symmetry; exact E.
  - intros e H. rewrite H in E. injection E as <- <-. cbn [fst snd].
    rewrite !ContactFacts.creations_app. cbn. rewrite !app_nil_r. auto.
  - intros info tr'.
    destruct (civicrm w tr _) as [[found |] | e]; cbn [deref ret throw] in E;
      try (injection E as <- <-; discriminate).
    destruct (positive (Reply.count found));
      [ destruct (Reply.values found) as [| [| c rows] | rows] | ];
      try (destruct (civicrm w _ (create data)) as [[made |] | e];
           cbn in E; injection E as <- <-;
           try discriminate; intros [= <- _]; auto).
    injection E as <- <-. intros [= <- _]. cbn [localArea]. unfold or.
    destruct (truthy (Row.custom_820 c)) eqn:T; auto.
Qed.

(** A known contact stored as "Colorado". *)
Lemma stored_area_resolution_witness :
  findOrCreateContact
    (Examples.hostOf (Examples.known (Str "Colorado") Undefined)
       Examples.noPlan)
    Examples.ada []
  = (Return {| id := Str "7"; localArea := Str "Colorado" |},
     [Request (lookup Examples.ada (Some "id,display_name,custom_820"))]).
Proof.
  exact (proj1 (stored_area_resolution
                  (Examples.hostOf (Examples.known (Str "Colorado") Undefined)
                     Examples.noPlan)
                  Examples.ada [])
           _ _ eq_refl eq_refl).
Defined.

(** ** Counting contribution requests *)

Lemma added_app {A} (m : async A) (tr more : list event) :
  snd (m tr) = (tr ++ more)%list -> added m tr = more.
Proof.
  intros H. unfold added. rewrite H, skipn_app, skipn_all, Nat.sub_diag.
  reflexivity.
Qed.

Lemma count_app (P : event -> bool) (l l' : list event) :
  count P (l ++ l')%list = (count P l + count P l')%nat.
Proof. unfold count. now rewrite filter_app, length_app. Qed.

Lemma count_none (l : list event) :
  forallb noContribution l = true -> count isContributionCreate l = 0%nat.
Proof.
  unfold count, noContribution.
  induction l as [| e l IH]; cbn; [ reflexivity | ].
  intros H. apply andb_prop in H as [He Hl].
  apply negb_true_iff in He. rewrite He. auto.
Qed.

Lemma count_aside (l : list event) :
  forallb aside l = true -> count isContributionCreate l = 0%nat.
Proof.
  intros H. apply count_none.
  rewrite forallb_forall in *. intros e He. specialize (H e He).
  unfold aside in H. apply andb_prop in H as [_ H]. exact H.
Qed.

Lemma count_absent (l : list event) :
  existsb isContributionCreate l = false -> count isContributionCreate l = 0%nat.
Proof.
  unfold count. induction l as [| e l IH]; cbn; [ reflexivity | ].
  intros H. apply orb_false_iff in H as [-> Hl]. auto.
Qed.

(** A computation that opens with the contribution request and then only
    logs sends that one request. *)
Lemma direct_once {A} (w : world) (c : Contribution.t)
  (k : option Reply.t -> async A) (tr : trace) :
  (forall data, adds noContribution (k data)) ->
  exists more,
    snd (bind (civiCRMApi w "Contribution" "create" (ContributionCreate c)) k tr)
    = (tr ++ more)%list
    /\ count isContributionCreate more = 1%nat.
Proof.
  intros Hk. unfold bind, civiCRMApi.
  destruct (civicrm w tr _) as [data | e].
  - destruct (Hk data (tr ++ [Request {| entity := "Contribution";
                                         action := "create";
                                         parameters := ContributionCreate c |}])%list)
      as (more & -> & Hmore).
    eexists. rewrite <- app_assoc. split; [ reflexivity | ].
    rewrite count_app, (count_none _ Hmore). reflexivity.
  - eexists. split; reflexivity.
Qed.

Lemma baseline_once (w : world) (contactId : value) (transaction : Tx.t)
  (tr : trace) :
  exists more,
    snd (Baseline.createContribution w contactId transaction tr)
    = (tr ++ more)%list
    /\ count isContributionCreate more = 1%nat.
Proof. apply direct_once. Traces.grow. Qed.

Lemma custom_field_once (w : world) (contactId : value) (transaction : Tx.t)
  (tr : trace) :
  exists more,
    snd (CustomField.createContribution w contactId transaction tr)
    = (tr ++ more)%list
    /\ count isContributionCreate more = 1%nat.
Proof.
  unfold CustomField.createContribution. apply direct_once. Traces.grow.
Qed.

Lemma campaign_once (w : world) (contactInfo : contactInfo)
  (transaction : Tx.t) (tr : trace) :
  exists more,
    snd (Campaign.createContribution w contactInfo transaction tr)
    = (tr ++ more)%list
    /\ count isContributionCreate more = 1%nat.
Proof.
  destruct (AmountFacts.later_submit w contactInfo transaction tr)
    as (before & Hbefore & Hnone & _).
  rewrite ContributionFacts.campaign_cases, Hbefore.
  destruct (civicrm w _ _) as [[made |] | e]; cbn [snd];
    rewrite <- app_assoc; eexists; (split; [ reflexivity | ]);
    rewrite count_app, (count_absent _ Hnone); reflexivity.
Qed.

Lemma membership_once (w : world) (contactInfo : contactInfo)
  (transaction : Tx.t) (tr : trace) :
  exists more,
    snd (Membership.createContribution w contactInfo transaction tr)
    = (tr ++ more)%list
    /\ count isContributionCreate more = 1%nat.
Proof.
  destruct (AmountFacts.later_submit w contactInfo transaction tr)
    as (before & Hbefore & Hnone & _).
  rewrite ContributionFacts.membership_cases, Hbefore.
  destruct (civicrm w _ _) as [[made |] | e]; cbn [snd];
    try (rewrite <- app_assoc; eexists; (split; [ reflexivity | ]);
         rewrite count_app, (count_absent _ Hnone); reflexivity).
  match goal with
  | |- context [Membership.membershipFor w ?a ?b ?c ?t] =>
      destruct (ContributionFacts.adds_membershipFor w a b c t)
        as (more & -> & Hmore)
  end.
  rewrite <- !app_assoc. eexists. split; [ reflexivity | ].
  rewrite !count_app, (count_absent _ Hnone), (count_aside _ Hmore).
  reflexivity.
Qed.

(** Whatever CiviCRM and Givebutter answer, [createContribution] sends the
    contribution request exactly once, in every variant: it is neither
    skipped nor repeated when the write-back, the plan lookup or the
    membership upsert fails, or when the contribution request itself is
    rejected. *)
Theorem one_contribution_request (w : world) (contactId : value)
  (contactInfo : contactInfo) (transaction : Tx.t) (tr : trace) :
  contributions (Baseline.createContribution w contactId transaction) tr
  = 1%nat
  /\ contributions (CustomField.createContribution w contactId transaction) tr
     = 1%nat
  /\ contributions (Membership.createContribution w contactInfo transaction) tr
     = 1%nat
  /\ contributions (Campaign.createContribution w contactInfo transaction) tr
     = 1%nat.
Proof.
  unfold contributions. repeat split.
  - destruct (baseline_once w contactId transaction tr) as (more & H & <-).
    now rewrite (added_app _ _ _ H).
  - destruct (custom_field_once w contactId transaction tr) as (more & H & <-).
    now rewrite (added_app _ _ _ H).
  - destruct (membership_once w contactInfo transaction tr) as (more & H & <-).
    now rewrite (added_app _ _ _ H).
  - destruct (campaign_once w contactInfo transaction tr) as (more & H & <-).
    now rewrite (added_app _ _ _ H).
Qed.

(** ** Contribution requests of one delivery *)

Lemma adds_baseline_find (w : world) (data : Donor.t) :
  adds noContribution (Baseline.findOrCreateContact w data).
Proof. unfold Baseline.findOrCreateContact. Traces.grow. Qed.

Lemma adds_custom_field_find (w : world) (data : Donor.t) :
  adds noContribution (CustomField.findOrCreateContact w data).
Proof. unfold CustomField.findOrCreateContact. Traces.grow. Qed.

Lemma adds_later_find (w : world) (data : Donor.t) :
  adds noContribution (findOrCreateContact w data).
Proof. unfold findOrCreateContact. Traces.grow. Qed.

(** The [try] block of a webhook handler and its [catch]: the contribution
    request is sent once when the contact resolution returns, and not at
    all otherwise. *)
Lemma pipeline_contributions {C} (find : Donor.t -> async C)
  (create : C -> Tx.t -> async Reply.t) (k : C -> Reply.t -> response)
  (h : error -> async response) (o : option Tx.t) (tr : trace) :
  (forall d, adds noContribution (find d)) ->
  (forall e, adds noContribution (h e)) ->
  (forall c d t, exists more,
      snd (create c d t) = (t ++ more)%list
      /\ count isContributionCreate more = 1%nat) ->
  contributions
    (tryCatch
       (await data <- deref "undefined" "first_name" o;
        await c <- find (donorOf data);
        await r <- create c data;
        ret (k c r))
       h) tr
  = match o with
    | Some d =>
        match fst (find (donorOf d) tr) with
        | Return _ => 1%nat
        | Throw _ => 0%nat
        end
    | None => 0%nat
    end.
Proof.
  intros Hfind Hh Hcreate. unfold contributions.
  match goal with
  | |- count _ (added ?m tr) = ?n =>
      assert (exists more,
                snd (m tr) = (tr ++ more)%list
                /\ count isContributionCreate more = n) as (more & H & <-);
        [ | now rewrite (added_app _ _ _ H) ]
  end.
  destruct o as [d |]; unfold tryCatch, bind; cbn [deref ret throw].
  - destruct (Hfind (donorOf d) tr) as (more1 & H1 & N1).
    destruct (find (donorOf d) tr) as [[c | e] t1]; cbn [fst snd] in *;
      subst t1.
    + destruct (Hcreate c d (tr ++ more1)%list) as (more2 & H2 & N2).
      destruct (create c d (tr ++ more1)%list) as [[r | e] t2];
        cbn [snd] in H2; subst t2.
      * exists (more1 ++ more2)%list. cbn [snd].
        split; [ now rewrite app_assoc | ].
        now rewrite count_app, (count_none _ N1), N2.
      * destruct (Hh e ((tr ++ more1) ++ more2)%list) as (more3 & -> & N3).
        exists (more1 ++ more2 ++ more3)%list.
        split; [ now rewrite !app_assoc | ].
        now rewrite !count_app, (count_none _ N1), (count_none _ N3), N2.
    + destruct (Hh e (tr ++ more1)%list) as (more3 & -> & N3).
      exists (more1 ++ more3)%list.
      split; [ now rewrite !app_assoc | ].
      now rewrite !count_app, (count_none _ N1), (count_none _ N3).
  - destruct (Hh (TypeError ("Cannot read properties of " ++ "undefined"
                             ++ " (reading '" ++ "first_name" ++ "')")) tr)
      as (more3 & -> & N3).
    exists more3. split; [ reflexivity | ]. now rewrite (count_none _ N3).
Qed.

Lemma adds_catch (code : Z) (error : error) :
  adds noContribution
    (emit (ConsoleError "ERROR processing webhook:" (Some error));;
     emit (ConsoleError "Stack:" (Some error));;
     ret (failure code error)).
Proof. Traces.grow. Qed.

Lemma contributions_ret {A} (a : A) (h : error -> async A) (tr : trace) :
  contributions (tryCatch (ret a) h) tr = 0%nat.
Proof.
  unfold contributions. rewrite (added_app _ tr []); [ reflexivity | ].
  cbn. now rewrite app_nil_r.
Qed.

(** One delivery sends the contribution request once when it reaches the
    contribution step, that is when the event is [transaction.succeeded],
    carries a data object and the contact resolution returns, and not at
    all otherwise; so a delivery never sends it twice, in any variant, and
    a request stopped by the signature check sends none. *)
Theorem contribution_requests_per_delivery (w : world) (req : request)
  (tr : trace) :
  (contributions (Baseline.handler w req) tr
   = if reaches (Baseline.findOrCreateContact w) (reqBody req) tr
     then 1%nat else 0%nat)
  /\ (contributions (CustomField.handler w req) tr
      = if reaches (CustomField.findOrCreateContact w) (reqBody req) tr
        then 1%nat else 0%nat)
  /\ (contributions (handler w (Membership.createContribution w) req) tr
      = if reaches (findOrCreateContact w) (reqBody req) tr
        then 1%nat else 0%nat)
  /\ (contributions (handler w (Campaign.createContribution w) req) tr
      = if reaches (findOrCreateContact w) (reqBody req) tr
        then 1%nat else 0%nat)
  /\ (contributions (Baseline.webhook w req) tr <= 1
      /\ contributions (CustomField.webhook w req) tr <= 1
      /\ contributions (Membership.webhook w req) tr <= 1
      /\ contributions (Campaign.webhook w req) tr <= 1)%nat.
Proof.
  assert (contributions (Baseline.handler w req) tr
          = if reaches (Baseline.findOrCreateContact w) (reqBody req) tr
            then 1%nat else 0%nat) as HB.
  { unfold Baseline.handler, Baseline.process, reaches.
    destruct (strictEq _ _); cbn [andb]; [ | apply contributions_ret ].
    rewrite pipeline_contributions.
    - destruct (data (reqBody req)) as [d |]; [ | reflexivity ].
      destruct (fst _); reflexivity.
    - apply adds_baseline_find.
    - apply adds_catch.
    - intros c d t. apply baseline_once. }
  assert (contributions (CustomField.handler w req) tr
          = if reaches (CustomField.findOrCreateContact w) (reqBody req) tr
            then 1%nat else 0%nat) as HC.
  { unfold CustomField.handler, CustomField.process, reaches.
    destruct (strictEq _ _); cbn [andb]; [ | apply contributions_ret ].
    rewrite pipeline_contributions.
    - destruct (data (reqBody req)) as [d |]; [ | reflexivity ].
      destruct (fst _); reflexivity.
    - apply adds_custom_field_find.
    - apply adds_catch.
    - intros c d t. apply custom_field_once. }
  assert (forall create,
            (forall c d t, exists more,
                snd (create c d t) = (t ++ more)%list
                /\ count isContributionCreate more = 1%nat) ->
            contributions (handler w create req) tr
            = if reaches (findOrCreateContact w) (reqBody req) tr
              then 1%nat else 0%nat) as HL.
  { intros create Hcreate. unfold handler, process, reaches.
    destruct (strictEq _ _); cbn [andb]; [ | apply contributions_ret ].
    rewrite pipeline_contributions.
    - destruct (data (reqBody req)) as [d |]; [ | reflexivity ].
      destruct (fst _); reflexivity.
    - apply adds_later_find.
    - apply adds_catch.
    - exact Hcreate. }
  assert (forall h : request -> async response,
            (contributions (h req) tr <= 1)%nat ->
            (contributions (route w h req) tr <= 1)%nat) as HR.
  { intros h Hh. unfold contributions, added, route, bind in *.
    rewrite SignatureGate.verify_cases.
    destruct (signature req) as [s |]; [ | exact Hh ].
    destruct (s =? "")%string; [ exact Hh | ].
    destruct (s =? _)%string; [ exact Hh | ].
    cbn [ret snd]. rewrite skipn_app, skipn_all, Nat.sub_diag. cbn. auto. }
  pose proof (HL _ (membership_once w)) as HM.
  pose proof (HL _ (campaign_once w)) as HK.
  repeat split; try assumption; apply HR;
    [ rewrite HB | rewrite HC | rewrite HM | rewrite HK ];
    match goal with
    | |- context [if ?b then _ else _] => destruct b
    end; auto.
Qed.

(** ** The membership step waits for the contribution *)

(** In the membership variant the category policy sends nothing to the
    Membership entity or to the plan API, and when CiviCRM does not answer
    the contribution request with a reply, [createContribution] throws
    without having looked up, created or renewed a membership and without
    having fetched a plan. *)
Theorem no_membership_without_contribution (w : world)
  (contactInfo : contactInfo) (transaction : Tx.t) (tr : trace) :
  (forall made,
     civicrm w (snd (resolveFinancialType w contactInfo transaction tr))
       (submit (contributionData w contactInfo transaction
                  (financialTypeId contactInfo transaction)))
     <> Resolved (Some made)) ->
  (exists e,
     fst (Membership.createContribution w contactInfo transaction tr)
     = Throw e)
  /\ forallb noMembership
       (added (Membership.createContribution w contactInfo transaction) tr)
     = true.
Proof.
  intros H. unfold added. rewrite ContributionFacts.membership_cases.
  destruct (civicrm w (snd (resolveFinancialType w contactInfo transaction tr))
              _) as [[made |] | e] eqn:E.
  - exfalso. exact (H made eq_refl).
  - split; [ eexists; reflexivity | ]. clear.
    rewrite CategoryFacts.resolve_cases. cbn [snd].
    destruct (writesBack contactInfo transaction);
      [ unfold updateLog; destruct (civicrm w tr _) | ];
      rewrite <- ?app_assoc, skipn_app, skipn_all, Nat.sub_diag;
      reflexivity.
  - split; [ eexists; reflexivity | ]. clear.
    rewrite CategoryFacts.resolve_cases. cbn [snd].
    destruct (writesBack contactInfo transaction);
      [ unfold updateLog; destruct (civicrm w tr _) | ];
      rewrite <- ?app_assoc, skipn_app, skipn_all, Nat.sub_diag;
      reflexivity.
Qed.

(** With nothing outside answering, a donation to the main campaign ends
    in a throw after the write-back and the contribution request. *)
Lemma no_membership_without_contribution_witness :
  (exists e,
     fst (Membership.createContribution Examples.offline
            (Examples.contact7 Null) (Examples.donation (Str "Colorado")) [])
     = Throw e)
  /\ forallb noMembership
       (added (Membership.createContribution Examples.offline
                 (Examples.contact7 Null)
                 (Examples.donation (Str "Colorado"))) [])
     = true.
Proof.
  apply (no_membership_without_contribution Examples.offline
           (Examples.contact7 Null) (Examples.donation (Str "Colorado")) []).
  intros made. vm_compute. discriminate.
Defined.

(** ** Deliveries the handlers do not act on *)

(** A delivery that passes the signature check and whose event is not
    exactly the string [transaction.succeeded] is answered 200 with the
    plain text OK, in every variant, and nothing is requested from CiviCRM
    or Givebutter and nothing is logged as an error. *)
Theorem other_events_touch_nothing (w : world) (req : request) (tr : trace) :
  fst (verifyGivebutterSignature w req tr) = Return Next ->
  event_ (reqBody req) <> Str "transaction.succeeded" ->
  Baseline.webhook w req tr = (Return unhandled, tr)
  /\ CustomField.webhook w req tr = (Return unhandled, tr)
  /\ Membership.webhook w req tr = (Return unhandled, tr)
  /\ Campaign.webhook w req tr = (Return unhandled, tr).
Proof.
  intros Hv He. apply CategoryFacts.strictEq_neq in He.
  unfold Baseline.webhook, CustomField.webhook, Membership.webhook,
    Campaign.webhook.
  rewrite !(HandlerFacts.route_passes _ _ _ _ Hv).
  unfold Baseline.handler, CustomField.handler, handler, Baseline.process,
    CustomField.process, process, tryCatch.
  rewrite He. auto.
Qed.

(** A refund, delivered unsigned. *)
Lemma other_events_touch_nothing_witness :
  Membership.webhook (Examples.hostOf Examples.fresh Examples.noPlan)
    (Examples.delivery None (Str "transaction.refunded")
       (Some (Examples.donation (Str "Colorado")))) []
  = (Return unhandled, []).
Proof.
  apply (other_events_touch_nothing
           (Examples.hostOf Examples.fresh Examples.noPlan)
           (Examples.delivery None (Str "transaction.refunded")
              (Some (Examples.donation (Str "Colorado")))) []).
  - reflexivity.
  - discriminate.
Defined.

(** ** What a processed delivery answers *)

(** In the two last variants, a [transaction.succeeded] delivery whose
    contact resolution returns and whose contribution request CiviCRM
    answers with a reply is answered 200 with [success: true], the resolved
    contact id and the [id] field of that reply, whatever became of the
    write-back, the plan lookup and the membership upsert. *)
Theorem delivery_reports_ids (w : world) (req : request) (tr tr1 : trace)
  (d : Tx.t) (info : contactInfo) (made : Reply.t) :
  event_ (reqBody req) = Str "transaction.succeeded" ->
  data (reqBody req) = Some d ->
  findOrCreateContact w (donorOf d) tr = (Return info, tr1) ->
  civicrm w (snd (resolveFinancialType w info d tr1))
    (submit (contributionData w info d (financialTypeId info d)))
  = Resolved (Some made) ->
  fst (handler w (Membership.createContribution w) req tr)
  = Return {| status := 200;
              sent := Json [("success", Bool true);
                            ("contact_id", id info);
                            ("contribution_id", Reply.id made)] |}
  /\ fst (handler w (Campaign.createContribution w) req tr)
     = Return {| status := 200;
                 sent := Json [("success", Bool true);
                               ("contact_id", id info);
                               ("contribution_id", Reply.id made)] |}.
Proof.
  intros Hev Hd Hfind Hmade.
  assert (forall create,
            create info d tr1
            = (Return made, snd (create info d tr1)) ->
            fst (handler w create req tr)
            = Return {| status := 200;
                        sent := Json [("success", Bool true);
                                      ("contact_id", id info);
                                      ("contribution_id", Reply.id made)] |})
    as H.
  { intros create Hcreate.
    unfold handler, process, tryCatch. rewrite Hev, Hd. cbn [strictEq].
    rewrite String.eqb_refl. unfold bind. cbn [deref ret].
    rewrite Hfind, Hcreate. reflexivity. }
  split; apply H.
  - rewrite ContributionFacts.membership_cases, Hmade. reflexivity.
  - rewrite ContributionFacts.campaign_cases, Hmade. reflexivity.
Qed.

(** A first donation on a CiviCRM where only contributions can be written:
    the write-back and the membership calls fail, and the answer still
    carries contact 7 and contribution 8. *)
Lemma delivery_reports_ids_witness :
  fst (handler (Examples.hostOf Examples.contributionsOnly Examples.noPlan)
         (Membership.createContribution
            (Examples.hostOf Examples.contributionsOnly Examples.noPlan))
         (Examples.delivery None (Str "transaction.succeeded")
            (Some (Examples.donation (Str "Colorado")))) [])
  = Return {| status := 200;
              sent := Json [("success", Bool true);
                            ("contact_id", Num 7);
                            ("contribution_id", Num 8)] |}.
Proof.
  exact (proj1 (delivery_reports_ids
                  (Examples.hostOf Examples.contributionsOnly Examples.noPlan)
                  (Examples.delivery None (Str "transaction.succeeded")
                     (Some (Examples.donation (Str "Colorado"))))
                  []
                  [Request (lookup Examples.ada
                              (Some "id,display_name,custom_820"));
                   Request (create Examples.ada)]
                  (Examples.donation (Str "Colorado"))
                  {| id := Num 7; localArea := Null |}
                  (Examples.created 8)
                  eq_refl eq_refl eq_refl eq_refl)).
Defined.

End FlowFacts.

(* ================================================================== *)
(** * Beyond the claims: the health endpoint *)

Module HealthFacts.
Import Health.

(** The health report tells whether each secret is set and never what it
    is: two configurations with the same base URL that set the same
    secrets, to whatever values, get the same report, in every variant. *)
Theorem health_hides_secret_values (c c' : config) (now : Z) :
  sameButSecrets c c' ->
  health c now = health c' now
  /\ healthWithPlans c now = healthWithPlans c' now.
Proof.
  intros (Hurl & Hs & Hg & Hk & Ha).
  unfold health, healthWithPlans, CIVICRM_REST_URL.
  rewrite Hurl, Hs, Hg, Hk, Ha. auto.
Qed.

Lemma health_hides_secret_values_witness :
  health
    {| GIVEBUTTER_WEBHOOK_SECRET := Str "whsec_one";
       GIVEBUTTER_API_KEY := Undefined;
       CIVICRM_BASE_URL := Str "https://crm.example.org";
       CIVICRM_SITE_KEY := Str "site_one";
       CIVICRM_API_KEY := Str "api_one" |} Examples.clock
  = health
      {| GIVEBUTTER_WEBHOOK_SECRET := Str "whsec_two";
         GIVEBUTTER_API_KEY := Str "";
         CIVICRM_BASE_URL := Str "https://crm.example.org";
         CIVICRM_SITE_KEY := Str "site_two";
         CIVICRM_API_KEY := Str "api_two" |} Examples.clock.
Proof.
  apply (health_hides_secret_values
           {| GIVEBUTTER_WEBHOOK_SECRET := Str "whsec_one";
              GIVEBUTTER_API_KEY := Undefined;
              CIVICRM_BASE_URL := Str "https://crm.example.org";
              CIVICRM_SITE_KEY := Str "site_one";
              CIVICRM_API_KEY := Str "api_one" |}
           {| GIVEBUTTER_WEBHOOK_SECRET := Str "whsec_two";
              GIVEBUTTER_API_KEY := Str "";
              CIVICRM_BASE_URL := Str "https://crm.example.org";
              CIVICRM_SITE_KEY := Str "site_two";
              CIVICRM_API_KEY := Str "api_two" |}
           Examples.clock).
  repeat split.
Defined.

End HealthFacts.
